(** * CRD migration controller of the cluster-manager operator

    A shallow embedding of
    [pkg/operators/clustermanager/controllers/migrationcontroller/migration_controller.go]:
    the [sync] function of [crdMigrationController] and the helpers that
    apply and remove [StorageVersionMigration] requests.

    The controller talks to three collaborators (a ClusterManager lister,
    the apiextensions client and the migration client), reads manifests
    and emits events.  Every such interaction is modelled as a step of a
    state-and-log monad: the collaborator answers from an abstract state
    and the call, together with its answer, is appended to a log of
    actions (the analogue of [Actions()] of a fake clientset). *)

From Stdlib Require Import ZArith Strings.Byte.
From stdpp Require Import base strings gmap list option.

Open Scope string_scope.
Set Warnings "-register-all".

(** ** API objects *)

(** [schema.GroupVersionResource] of the migration API. *)
Record GroupVersionResource := mkGVR {
  Group : string;
  Version : string;
  Resource : string
}.

(** [migrationv1alpha1.StorageVersionMigrationSpec]. *)
Record StorageVersionMigrationSpec := mkSpec {
  SpecResource : GroupVersionResource;
  ContinueToken : string
}.

(** [metav1.OwnerReference], restricted to its identifying fields. *)
Record OwnerReference := mkOwnerRef {
  OwnerAPIVersion : string;
  OwnerKind : string;
  OwnerName : string;
  OwnerUID : string
}.

(** [metav1.ObjectMeta]: the fields a manifest sets ([Name], [Namespace],
    [Labels], [Annotations], [OwnerReferences]) and the ones only the
    store writes ([UID], [ResourceVersion], [Generation]). *)
Record ObjectMeta := mkMeta {
  Name : string;
  Namespace : string;
  UID : string;
  ResourceVersion : string;
  Generation : Z;
  Labels : gmap string string;
  Annotations : gmap string string;
  OwnerReferences : list OwnerReference
}.

(** [metav1.Condition], restricted to type and status.  In Go
    [ConditionStatus] is a string type, so any string can occur. *)
Record Condition := mkCondition {
  CondType : string;
  CondStatus : string
}.

Definition ConditionTrue : string := "True".

(** [migrationv1alpha1.StorageVersionMigration]. *)
Record StorageVersionMigration := mkSVM {
  Meta : ObjectMeta;
  Spec : StorageVersionMigrationSpec;
  StatusConditions : list Condition
}.

(** The owning object, [operatorapiv1.ClusterManager], restricted to what
    the controller reads.  [DeletionTimestamp] is a [*metav1.Time]; an
    instant is counted in nanoseconds from Go's zero time. *)
Record ClusterManager := mkClusterManager {
  CMName : string;
  DeletionTimestamp : option Z;
  Conditions : list Condition
}.

(** What [genericCodec.Decode] can return: the scheme registers the
    migration API group only, so a decoded object is a
    [StorageVersionMigration] or another registered kind. *)
Inductive Object :=
| ObjStorageVersionMigration (o : StorageVersionMigration)
| ObjOther (kind : string) (name : string).

#[global] Instance GroupVersionResource_eq_dec : EqDecision GroupVersionResource.
Proof. solve_decision. Defined.
#[global] Instance StorageVersionMigrationSpec_eq_dec : EqDecision StorageVersionMigrationSpec.
Proof. solve_decision. Defined.

(** ** Errors *)

(** [metav1.StatusReason] of an API status error. *)
Inductive StatusReason :=
| StatusReasonUnknown
| StatusReasonNotFound
| StatusReasonAlreadyExists
| StatusReasonConflict
| StatusReasonForbidden
| StatusReasonInternalError.

(** Go's [error] values as they occur here: API status errors returned by
    the collaborators, file-system errors, the three [fmt.Errorf] shapes of
    the controller (the operand is formatted with [%v], never wrapped) and
    the aggregate built by [NewMultiLineAggregate]. *)
Inductive error :=
| StatusError (reason : StatusReason) (message : string)
| PathError (op : string) (path : string)
| ErrorfErr (format : string) (file : string) (cause : error)
| ErrorfObj (format : string) (file : string) (object : Object)
| Aggregate (errs : list error).

(** [errors.IsNotFound]: true for a status error whose reason is
    [NotFound]. *)
Definition IsNotFound (err : error) : bool :=
  match err with
  | StatusError StatusReasonNotFound _ => true
  | _ => false
  end.

(** [operatorhelpers.NewMultiLineAggregate]: [nil] for an empty list, one
    aggregate error otherwise.  The list given here never holds [nil]. *)
Definition NewMultiLineAggregate (errs : list error) : option error :=
  match errs with
  | [] => None
  | _ :: _ => Some (Aggregate errs)
  end.

(** A Go pair [(value, error)] returned by a collaborator: either the
    value with a nil error, or an error together with whatever value came
    along (possibly nil). *)
Inductive Resp (A : Type) :=
| RespOk (value : A)
| RespErr (partial : option A) (err : error).
Arguments RespOk {A} value.
Arguments RespErr {A} partial err.

(** ** Package constants *)

Definition migrationRequestFiles : list string :=
  [ "cluster-manager/cluster-manager-managedclustersets-migration.yaml";
    "cluster-manager/cluster-manager-managedclustersetbindings-migration.yaml" ].

Definition clusterManagerApplied : string := "Applied".
Definition migrationRequestCRDName : string :=
  "storageversionmigrations.migration.k8s.io".

(** [time.Second], a [time.Duration] counted in nanoseconds. *)
Definition Second : Z := 1000000000.

(** ** The log of interactions *)

Inductive Action :=
| ActAsset (file : string) (r : list byte + error)
| ActListerGet (name : string) (r : Resp ClusterManager)
| ActCRDGet (name : string) (err : option error)
| ActGet (name : string) (r : Resp StorageVersionMigration)
| ActCreate (obj : StorageVersionMigration) (r : Resp StorageVersionMigration)
| ActUpdate (obj : StorageVersionMigration) (r : Resp StorageVersionMigration)
| ActDelete (name : string) (err : option error)
| ActEventf (reason : string) (subject : StorageVersionMigration)
| ActWarningf (reason : string) (subject : StorageVersionMigration) (err : error)
| ActAddAfter (key : string) (delay : Z).

(** The verb of a call to the migration client, as [GetVerb()] of a
    recorded clientset action. *)
Definition verb (a : Action) : option string :=
  match a with
  | ActGet _ _ => Some "get"
  | ActCreate _ _ => Some "create"
  | ActUpdate _ _ => Some "update"
  | ActDelete _ _ => Some "delete"
  | _ => None
  end.

Definition isCreate (a : Action) : bool :=
  match a with ActCreate _ _ => true | _ => false end.
Definition isUpdate (a : Action) : bool :=
  match a with ActUpdate _ _ => true | _ => false end.
Definition isDelete (a : Action) : bool :=
  match a with ActDelete _ _ => true | _ => false end.
Definition isAddAfter (a : Action) : bool :=
  match a with ActAddAfter _ _ => true | _ => false end.

(** A mutating call on subordinate objects: create, update or delete. *)
Definition isMutation (a : Action) : bool :=
  isCreate a || isUpdate a || isDelete a.

(** A call that reaches a store at all (lister, CRD or migration client). *)
Definition isStoreCall (a : Action) : bool :=
  match a with
  | ActListerGet _ _ | ActCRDGet _ _ | ActGet _ _
  | ActCreate _ _ | ActUpdate _ _ | ActDelete _ _ => true
  | _ => false
  end.

Fixpoint countb (p : Action -> bool) (log : list Action) : nat :=
  match log with
  | [] => 0
  | a :: rest => (if p a then 1 else 0) + countb p rest
  end.

(** The files whose manifest was asked for, in order. *)
Definition assetsOf (log : list Action) : list string :=
  omap (fun a => match a with ActAsset f _ => Some f | _ => None end) log.

(** The names a delete was issued for, in order. *)
Definition deletesOf (log : list Action) : list string :=
  omap (fun a => match a with ActDelete n _ => Some n | _ => None end) log.

(** ** The state-and-log monad *)

Definition M (St A : Type) : Type := St -> A * St * list Action.

Definition ret {St A} (a : A) : M St A := fun s => (a, s, []).

Definition bind {St A B} (m : M St A) (k : A -> M St B) : M St B :=
  fun s =>
    let '(a, s1, l1) := m s in
    let '(b, s2, l2) := k a s1 in
    (b, s2, (l1 ++ l2)%list).

Definition emit {St} (a : Action) : M St unit := fun s => (tt, s, [a]).

(** A call to a collaborator: it answers from the state, and the call is
    logged with its answer. *)
Definition call {St A} (op : St -> A * St) (act : A -> Action) : M St A :=
  fun s => let '(a, s') := op s in (a, s', [act a]).

Notation "'let*' x ':=' m 'in' k" := (bind m (fun x => k))
  (at level 10, x pattern, m at level 100, k at level 200).

Definition run {St A} (m : M St A) (s : St) : A * St * list Action := m s.
Definition resultOf {St A} (m : M St A) (s : St) : A := (m s).1.1.
Definition stateOf {St A} (m : M St A) (s : St) : St := (m s).1.2.
Definition logOf {St A} (m : M St A) (s : St) : list Action := (m s).2.

(** ** Collaborators *)

(** [operatorlister.ClusterManagerLister]. *)
Record ClusterManagerLister (St : Type) := mkLister {
  listerGet : string -> St -> Resp ClusterManager * St
}.
Arguments listerGet {St} _ _ _.

(** The part of [apiextensionsclient.Interface] the controller uses:
    [ApiextensionsV1().CustomResourceDefinitions().Get], whose object is
    discarded by the caller. *)
Record ApiextensionsInterface (St : Type) := mkApiext {
  crdGet : string -> St -> option error * St
}.
Arguments crdGet {St} _ _ _.

(** [migrationv1alpha1client.StorageVersionMigrationsGetter], through
    [StorageVersionMigrations()]. *)
Record StorageVersionMigrationsGetter (St : Type) := mkMigrationClient {
  svmGet : string -> St -> Resp StorageVersionMigration * St;
  svmCreate : StorageVersionMigration -> St -> Resp StorageVersionMigration * St;
  svmUpdate : StorageVersionMigration -> St -> Resp StorageVersionMigration * St;
  svmDelete : string -> St -> option error * St
}.
Arguments svmGet {St} _ _ _.
Arguments svmCreate {St} _ _ _.
Arguments svmUpdate {St} _ _ _.
Arguments svmDelete {St} _ _ _.

(** The controller struct. *)
Record crdMigrationController (St : Type) := mkController {
  clusterManagerLister : ClusterManagerLister St;
  apiExtensionClient : ApiextensionsInterface St;
  migrationClient : StorageVersionMigrationsGetter St
}.
Arguments clusterManagerLister {St} _.
Arguments apiExtensionClient {St} _.
Arguments migrationClient {St} _.

(** What the package takes from outside this file and is not under
    [src/]: the embedded manifest file system
    ([manifests.ClusterManagerManifestFiles.ReadFile]), the template
    renderer ([assets.MustCreateAssetFromTemplate], which panics rather
    than fail; it is taken to succeed on the embedded templates), the
    decoder ([genericCodec.Decode]) and library-go's
    [resourcemerge.EnsureObjectMeta].  The latter takes the value of
    [*modified] on entry and returns its value on exit together with the
    metadata it leaves in [existing]. *)
Record Package := mkPackage {
  ReadFile : string -> list byte + error;
  MustCreateAssetFromTemplate : string -> list byte -> list byte;
  Decode : list byte -> Object + error;
  EnsureObjectMeta : bool -> ObjectMeta -> ObjectMeta -> bool * ObjectMeta
}.

(** [resourceapply.AssetFunc]. *)
Definition AssetFunc : Type := string -> list byte + error.

(** [IsZero] on a [*metav1.Time]: a nil pointer or the zero instant. *)
Definition IsZero (t : option Z) : bool :=
  match t with
  | None => true
  | Some i => (i =? 0)%Z
  end.

(** [meta.IsStatusConditionTrue]: the first condition of the given type
    decides; false when there is none. *)
Fixpoint IsStatusConditionTrue (conditions : list Condition) (conditionType : string) : bool :=
  match conditions with
  | [] => false
  | c :: rest =>
      if String.eqb (CondType c) conditionType
      then String.eqb (CondStatus c) ConditionTrue
      else IsStatusConditionTrue rest conditionType
  end.

(** [equality.Semantic.DeepEqual] on two specs: the spec holds strings
    only, so it is structural equality. *)
Definition SemanticDeepEqualSpec (a b : StorageVersionMigrationSpec) : bool :=
  bool_decide (a = b).

Definition setMeta (o : StorageVersionMigration) (m : ObjectMeta) : StorageVersionMigration :=
  {| Meta := m; Spec := Spec o; StatusConditions := StatusConditions o |}.

Definition setSpec (o : StorageVersionMigration) (sp : StorageVersionMigrationSpec) : StorageVersionMigration :=
  {| Meta := Meta o; Spec := sp; StatusConditions := StatusConditions o |}.

(** ** The controller *)

Section Controller.
Context {St : Type}.
Variable pkg : Package.

(** The closure both loops pass as [manifests]. *)
Definition clusterManagerAsset : AssetFunc :=
  fun name =>
    match ReadFile pkg name with
    | inr err => inr err
    | inl template => inl (MustCreateAssetFromTemplate pkg name template)
    end.

Definition callAsset (manifests : AssetFunc) (file : string) : M St (list byte + error) :=
  call (fun s => (manifests file, s)) (ActAsset file).

(** [applyStorageVersionMigration].  The result is the Go triple
    [(object, changed, err)]. *)
Definition applyStorageVersionMigration
    (client : StorageVersionMigrationsGetter St)
    (manifests : AssetFunc)
    (file : string)
  : M St (option StorageVersionMigration * bool * option error) :=
  let* rendered := callAsset manifests file in
  match rendered with
  | inr err => ret (None, false, Some (ErrorfErr "missing %q: %v" file err))
  | inl objBytes =>
  match Decode pkg objBytes with
  | inr err => ret (None, false, Some (ErrorfErr "cannot decode %q: %v" file err))
  | inl requiredObj =>
  match requiredObj with
  | ObjOther _ _ =>
      ret (None, false,
           Some (ErrorfObj "invalid StorageVersionMigration in file %q: %v" file requiredObj))
  | ObjStorageVersionMigration required =>
  let* got := call (svmGet client (Name (Meta required))) (ActGet (Name (Meta required))) in
  match got with
  | RespErr _ err =>
      if IsNotFound err then
        let* created := call (svmCreate client required) (ActCreate required) in
        match created with
        | RespErr actual err =>
            let* _ := emit (ActWarningf "StorageVersionMigrationCreateFailed" required err) in
            ret (actual, true, Some err)
        | RespOk actual =>
            let* _ := emit (ActEventf "StorageVersionMigrationCreated" actual) in
            ret (Some actual, true, None)
        end
      else ret (None, false, Some err)
  | RespOk existing =>
      let modified := false in
      let existingCopy := existing in
      let '(modified, meta) :=
        EnsureObjectMeta pkg modified (Meta existingCopy) (Meta required) in
      let existingCopy := setMeta existingCopy meta in
      let '(modified, existing) :=
        if negb (SemanticDeepEqualSpec (Spec existingCopy) (Spec required))
        then (true, setSpec existing (Spec required))
        else (modified, existing) in
      if negb modified then ret (Some existing, false, None)
      else
        let* updated := call (svmUpdate client existingCopy) (ActUpdate existingCopy) in
        match updated with
        | RespErr actual err =>
            let* _ := emit (ActWarningf "StorageVersionMigrationUpdateFailed" existingCopy err) in
            ret (actual, true, Some err)
        | RespOk actual =>
            let* _ := emit (ActEventf "StorageVersionMigrationUpdated" actual) in
            ret (Some actual, true, None)
        end
  end end end end.

(** [removeStorageVersionMigration]. *)
Definition removeStorageVersionMigration
    (migrationClient : StorageVersionMigrationsGetter St)
    (manifests : AssetFunc)
    (file : string)
  : M St (option error) :=
  let* rendered := callAsset manifests file in
  match rendered with
  | inr err => ret (Some err)
  | inl objectRaw =>
  match Decode pkg objectRaw with
  | inr err => ret (Some err)
  | inl object =>
  match object with
  | ObjOther _ _ =>
      ret (Some (ErrorfObj "invalid StorageVersionMigration in file %q: %v" file object))
  | ObjStorageVersionMigration required =>
      let* err := call (svmDelete migrationClient (Name (Meta required)))
                       (ActDelete (Name (Meta required))) in
      match err with
      | Some e => if IsNotFound e then ret None else ret (Some e)
      | None => ret None
      end
  end end end.

Variable c : crdMigrationController St.

(** The loop of [removeStorageVersionMigrations]: it returns at the
    first artifact whose removal fails. *)
Fixpoint removeLoop (files : list string) : M St (option error) :=
  match files with
  | [] => ret None
  | file :: rest =>
      let* err := removeStorageVersionMigration (migrationClient c) clusterManagerAsset file in
      match err with
      | Some e => ret (Some e)
      | None => removeLoop rest
      end
  end.

Definition removeStorageVersionMigrations : M St (option error) :=
  removeLoop migrationRequestFiles.

(** The loop of [applyStorageVersionMigrations]: [errs] collects the
    failures and the loop goes on. *)
Fixpoint applyLoop (files : list string) (errs : list error) : M St (list error) :=
  match files with
  | [] => ret errs
  | file :: rest =>
      let* r := applyStorageVersionMigration (migrationClient c) clusterManagerAsset file in
      match r.2 with
      | Some err => applyLoop rest (errs ++ [err])%list
      | None => applyLoop rest errs
      end
  end.

Definition applyStorageVersionMigrations : M St (option error) :=
  let* errs := applyLoop migrationRequestFiles [] in
  ret (NewMultiLineAggregate errs).

(** [supportStorageVersionMigration]: the Go pair [(bool, error)]. *)
Definition supportStorageVersionMigration : M St (bool * option error) :=
  let* err := call (crdGet (apiExtensionClient c) migrationRequestCRDName)
                   (ActCRDGet migrationRequestCRDName) in
  match err with
  | Some e => if IsNotFound e then ret (false, None) else ret (false, Some e)
  | None => ret (true, None)
  end.

(** [sync], for the queue key of the sync context. *)
Definition sync (clusterManagerName : string) : M St (option error) :=
  let* got := call (listerGet (clusterManagerLister c) clusterManagerName)
                   (ActListerGet clusterManagerName) in
  match got with
  | RespErr _ err => if IsNotFound err then ret None else ret (Some err)
  | RespOk clusterManager =>
      let* sup := supportStorageVersionMigration in
      match sup.2 with
      | Some err => ret (Some err)
      | None =>
          if negb sup.1 then ret None
          else if negb (IsZero (DeletionTimestamp clusterManager))
          then removeStorageVersionMigrations
          else if negb (IsStatusConditionTrue (Conditions clusterManager) clusterManagerApplied)
          then
            let* _ := emit (ActAddAfter clusterManagerName (5 * Second)) in
            ret None
          else applyStorageVersionMigrations
      end
  end.

End Controller.

(** ** Reference instances

    An in-memory cluster in the manner of the fake clientsets the
    package's tests use ([NewSimpleClientset]): an object tracker per
    kind, keyed by name, and optional reactors that make a verb of the
    migration client fail before it reaches the tracker. *)

Record Cluster := mkCluster {
  clusterManagers : gmap string ClusterManager;
  crds : gset string;
  migrations : gmap string StorageVersionMigration
}.

Definition setMigrations (s : Cluster) (m : gmap string StorageVersionMigration) : Cluster :=
  {| clusterManagers := clusterManagers s; crds := crds s; migrations := m |}.

Definition NewNotFound (resource name : string) : error :=
  StatusError StatusReasonNotFound (resource ++ " " ++ name ++ " not found").

Definition NewAlreadyExists (resource name : string) : error :=
  StatusError StatusReasonAlreadyExists (resource ++ " " ++ name ++ " already exists").

Definition fakeLister : ClusterManagerLister Cluster :=
  {| listerGet := fun name s =>
       match clusterManagers s !! name with
       | Some cm => (RespOk cm, s)
       | None => (RespErr None (NewNotFound "clustermanagers.operator.open-cluster-management.io" name), s)
       end |}.

Definition fakeApiext : ApiextensionsInterface Cluster :=
  {| crdGet := fun name s =>
       if decide (name ∈ crds s) then (None, s)
       else (Some (NewNotFound "customresourcedefinitions.apiextensions.k8s.io" name), s) |}.

(** A reactor answers a verb with an error, or lets the call through. *)
Definition Reactor : Type := string -> option error.

Definition noReactor : Reactor := fun _ => None.

Definition fakeMigrationClient (react : Reactor) : StorageVersionMigrationsGetter Cluster :=
  {| svmGet := fun name s =>
       match react "get" with
       | Some e => (RespErr None e, s)
       | None =>
           match migrations s !! name with
           | Some o => (RespOk o, s)
           | None => (RespErr None (NewNotFound migrationRequestCRDName name), s)
           end
       end;
     svmCreate := fun obj s =>
       match react "create" with
       | Some e => (RespErr None e, s)
       | None =>
           match migrations s !! Name (Meta obj) with
           | Some _ => (RespErr None (NewAlreadyExists migrationRequestCRDName (Name (Meta obj))), s)
           | None => (RespOk obj, setMigrations s (<[Name (Meta obj) := obj]> (migrations s)))
           end
       end;
     svmUpdate := fun obj s =>
       match react "update" with
       | Some e => (RespErr None e, s)
       | None =>
           match migrations s !! Name (Meta obj) with
           | Some _ => (RespOk obj, setMigrations s (<[Name (Meta obj) := obj]> (migrations s)))
           | None => (RespErr None (NewNotFound migrationRequestCRDName (Name (Meta obj))), s)
           end
       end;
     svmDelete := fun name s =>
       match react "delete" with
       | Some e => (Some e, s)
       | None =>
           match migrations s !! name with
           | Some _ => (None, setMigrations s (delete name (migrations s)))
           | None => (Some (NewNotFound migrationRequestCRDName name), s)
           end
       end |}.

Definition fakeController (react : Reactor) : crdMigrationController Cluster :=
  {| clusterManagerLister := fakeLister;
     apiExtensionClient := fakeApiext;
     migrationClient := fakeMigrationClient react |}.

(** A reference instance for [EnsureObjectMeta], which is library-go's
    and not under [src/]: it keeps the metadata the store holds and lays
    the desired object's own name, namespace, labels and annotations over
    it, and reports whether anything had to change.  Only the sample runs
    use it; the general statements hold for any [EnsureObjectMeta]. *)
Definition SetStringIfSet (modified : bool) (existing required : string) : bool * string :=
  if decide (required = "") then (modified, existing)
  else if decide (required = existing) then (modified, existing)
  else (true, required).

Definition MergeMap (modified : bool) (existing required : gmap string string)
  : bool * gmap string string :=
  (modified || negb (bool_decide (required ⊆ existing)), required ∪ existing).

Definition overlayObjectMeta (modified : bool) (existing required : ObjectMeta)
  : bool * ObjectMeta :=
  let '(modified, ns) := SetStringIfSet modified (Namespace existing) (Namespace required) in
  let '(modified, name) := SetStringIfSet modified (Name existing) (Name required) in
  let '(modified, labels) := MergeMap modified (Labels existing) (Labels required) in
  let '(modified, annotations) := MergeMap modified (Annotations existing) (Annotations required) in
  (modified,
   {| Name := name; Namespace := ns; UID := UID existing;
      ResourceVersion := ResourceVersion existing; Generation := Generation existing;
      Labels := labels; Annotations := annotations;
      OwnerReferences := OwnerReferences existing |}).

(** Two sample manifests under the names of [migrationRequestFiles],
    carrying the object names the package's tests expect. *)
Definition setsName : string := "managedclustersets.cluster.open-cluster-management.io".
Definition bindingsName : string := "managedclustersetbindings.cluster.open-cluster-management.io".

Definition sampleManifest (name resource : string) : string :=
  "apiVersion: migration.k8s.io/v1alpha1 kind: StorageVersionMigration metadata: name: "
  ++ name ++ " spec: resource: group: cluster.open-cluster-management.io resource: "
  ++ resource ++ " version: v1beta1".

Definition sampleMeta (name : string) : ObjectMeta :=
  {| Name := name; Namespace := ""; UID := ""; ResourceVersion := ""; Generation := 0;
     Labels := ∅; Annotations := ∅; OwnerReferences := [] |}.

Definition sampleMigration (name resource : string) : StorageVersionMigration :=
  {| Meta := sampleMeta name;
     Spec := {| SpecResource := {| Group := "cluster.open-cluster-management.io";
                                   Version := "v1beta1"; Resource := resource |};
                ContinueToken := "" |};
     StatusConditions := [] |}.

Definition setsMigration : StorageVersionMigration :=
  sampleMigration setsName "managedclustersets".
Definition bindingsMigration : StorageVersionMigration :=
  sampleMigration bindingsName "managedclustersetbindings".

Definition setsFile : string :=
  "cluster-manager/cluster-manager-managedclustersets-migration.yaml".
Definition bindingsFile : string :=
  "cluster-manager/cluster-manager-managedclustersetbindings-migration.yaml".

Definition sampleReadFile (name : string) : list byte + error :=
  if String.eqb name setsFile
  then inl (String.list_byte_of_string (sampleManifest setsName "managedclustersets"))
  else if String.eqb name bindingsFile
  then inl (String.list_byte_of_string (sampleManifest bindingsName "managedclustersetbindings"))
  else inr (PathError "open" name).

Definition sampleDecode (data : list byte) : Object + error :=
  let text := String.string_of_list_byte data in
  if String.eqb text (sampleManifest setsName "managedclustersets")
  then inl (ObjStorageVersionMigration setsMigration)
  else if String.eqb text (sampleManifest bindingsName "managedclustersetbindings")
  then inl (ObjStorageVersionMigration bindingsMigration)
  else inr (StatusError StatusReasonUnknown "no kind is registered for the payload").

Definition samplePackage : Package :=
  {| ReadFile := sampleReadFile;
     MustCreateAssetFromTemplate := fun _ template => template;
     Decode := sampleDecode;
     EnsureObjectMeta := overlayObjectMeta |}.

Definition emptyCluster : Cluster :=
  {| clusterManagers := ∅; crds := ∅; migrations := ∅ |}.

(** A cluster-manager named [cluster-manager]. *)
Definition sampleClusterManager (deletion : option Z) (conds : list Condition) : ClusterManager :=
  {| CMName := "cluster-manager"; DeletionTimestamp := deletion; Conditions := conds |}.

(** A hub holding one cluster-manager, with or without the migration CRD,
    and some migration requests. *)
Definition hub (cm : ClusterManager) (withCRD : bool)
    (objs : list StorageVersionMigration) : Cluster :=
  {| clusterManagers := {[ CMName cm := cm ]};
     crds := if withCRD then {[ migrationRequestCRDName ]} else ∅;
     migrations := list_to_map (map (fun o => (Name (Meta o), o)) objs) |}.

(** A migration request as an administrator may have left it: the name
    of the bindings request, an empty spec, a label of the store's. *)
Definition driftedBindings : StorageVersionMigration :=
  {| Meta := {| Name := bindingsName; Namespace := ""; UID := "8e2c";
                ResourceVersion := "41"; Generation := 1;
                Labels := {[ "audit" := "on" ]}; Annotations := ∅;
                OwnerReferences := [] |};
     Spec := {| SpecResource := {| Group := ""; Version := ""; Resource := "" |};
                ContinueToken := "" |};
     StatusConditions := [] |}.

Definition forbidden (v : string) : Reactor :=
  fun verb => if String.eqb verb v
              then Some (StatusError StatusReasonForbidden "forbidden")
              else None.

(** ** Outcomes of one apply

    The merge decision of [applyStorageVersionMigration] on an object the
    store returned: the working copy that is sent on update, and whether
    an update is due. *)

Definition workingCopy (pkg : Package) (existing required : StorageVersionMigration)
  : StorageVersionMigration :=
  setMeta existing (EnsureObjectMeta pkg false (Meta existing) (Meta required)).2.

Definition needsUpdate (pkg : Package) (existing required : StorageVersionMigration) : bool :=
  (EnsureObjectMeta pkg false (Meta existing) (Meta required)).1
  || negb (SemanticDeepEqualSpec (Spec existing) (Spec required)).

Definition ApplyResult : Type :=
  (option StorageVersionMigration * bool * option error)%type.

Definition changedOf (r : ApplyResult) : bool := r.1.2.
Definition errOf (r : ApplyResult) : option error := r.2.

(** The nine ways through [applyStorageVersionMigration], each with its
    result, final state and log. *)
Inductive ApplyPath {St : Type} (pkg : Package)
    (client : StorageVersionMigrationsGetter St) (manifests : AssetFunc)
    (file : string) (s : St) : ApplyResult -> St -> list Action -> Prop :=
| PathMissing err :
    manifests file = inr err ->
    ApplyPath pkg client manifests file s
      (None, false, Some (ErrorfErr "missing %q: %v" file err)) s
      [ActAsset file (inr err)]
| PathUndecodable data err :
    manifests file = inl data ->
    Decode pkg data = inr err ->
    ApplyPath pkg client manifests file s
      (None, false, Some (ErrorfErr "cannot decode %q: %v" file err)) s
      [ActAsset file (inl data)]
| PathInvalid data kind name :
    manifests file = inl data ->
    Decode pkg data = inl (ObjOther kind name) ->
    ApplyPath pkg client manifests file s
      (None, false,
       Some (ErrorfObj "invalid StorageVersionMigration in file %q: %v" file (ObjOther kind name)))
      s [ActAsset file (inl data)]
| PathGetFailed data required partial err s1 :
    manifests file = inl data ->
    Decode pkg data = inl (ObjStorageVersionMigration required) ->
    svmGet client (Name (Meta required)) s = (RespErr partial err, s1) ->
    IsNotFound err = false ->
    ApplyPath pkg client manifests file s (None, false, Some err) s1
      [ActAsset file (inl data);
       ActGet (Name (Meta required)) (RespErr partial err)]
| PathCreateFailed data required partial err s1 actual cerr s2 :
    manifests file = inl data ->
    Decode pkg data = inl (ObjStorageVersionMigration required) ->
    svmGet client (Name (Meta required)) s = (RespErr partial err, s1) ->
    IsNotFound err = true ->
    svmCreate client required s1 = (RespErr actual cerr, s2) ->
    ApplyPath pkg client manifests file s (actual, true, Some cerr) s2
      [ActAsset file (inl data);
       ActGet (Name (Meta required)) (RespErr partial err);
       ActCreate required (RespErr actual cerr);
       ActWarningf "StorageVersionMigrationCreateFailed" required cerr]
| PathCreated data required partial err s1 actual s2 :
    manifests file = inl data ->
    Decode pkg data = inl (ObjStorageVersionMigration required) ->
    svmGet client (Name (Meta required)) s = (RespErr partial err, s1) ->
    IsNotFound err = true ->
    svmCreate client required s1 = (RespOk actual, s2) ->
    ApplyPath pkg client manifests file s (Some actual, true, None) s2
      [ActAsset file (inl data);
       ActGet (Name (Meta required)) (RespErr partial err);
       ActCreate required (RespOk actual);
       ActEventf "StorageVersionMigrationCreated" actual]
| PathUnchanged data required existing s1 :
    manifests file = inl data ->
    Decode pkg data = inl (ObjStorageVersionMigration required) ->
    svmGet client (Name (Meta required)) s = (RespOk existing, s1) ->
    needsUpdate pkg existing required = false ->
    ApplyPath pkg client manifests file s (Some existing, false, None) s1
      [ActAsset file (inl data);
       ActGet (Name (Meta required)) (RespOk existing)]
| PathUpdateFailed data required existing s1 actual uerr s2 :
    manifests file = inl data ->
    Decode pkg data = inl (ObjStorageVersionMigration required) ->
    svmGet client (Name (Meta required)) s = (RespOk existing, s1) ->
    needsUpdate pkg existing required = true ->
    svmUpdate client (workingCopy pkg existing required) s1 = (RespErr actual uerr, s2) ->
    ApplyPath pkg client manifests file s (actual, true, Some uerr) s2
      [ActAsset file (inl data);
       ActGet (Name (Meta required)) (RespOk existing);
       ActUpdate (workingCopy pkg existing required) (RespErr actual uerr);
       ActWarningf "StorageVersionMigrationUpdateFailed"
         (workingCopy pkg existing required) uerr]
| PathUpdated data required existing s1 actual s2 :
    manifests file = inl data ->
    Decode pkg data = inl (ObjStorageVersionMigration required) ->
    svmGet client (Name (Meta required)) s = (RespOk existing, s1) ->
    needsUpdate pkg existing required = true ->
    svmUpdate client (workingCopy pkg existing required) s1 = (RespOk actual, s2) ->
    ApplyPath pkg client manifests file s (Some actual, true, None) s2
      [ActAsset file (inl data);
       ActGet (Name (Meta required)) (RespOk existing);
       ActUpdate (workingCopy pkg existing required) (RespOk actual);
       ActEventf "StorageVersionMigrationUpdated" actual].

(** A chain of per-artifact runs, one after the other, each from the
    state its predecessor left. *)
Inductive Attempts {St R : Type} (f : string -> M St R)
  : list string -> St -> list R -> St -> list Action -> Prop :=
| AttemptsNil s : Attempts f [] s [] s []
| AttemptsCons file rest s r s1 l1 rs s2 l2 :
    run (f file) s = (r, s1, l1) ->
    Attempts f rest s1 rs s2 l2 ->
    Attempts f (file :: rest) s (r :: rs) s2 (l1 ++ l2)%list.

(** ** Readings of a log *)

(** The objects sent by update calls, in order. *)
Definition updatePayloads (log : list Action) : list StorageVersionMigration :=
  omap (fun a => match a with ActUpdate o _ => Some o | _ => None end) log.

(** The object name a manifest file stands for, when the file renders and
    decodes to a [StorageVersionMigration]. *)
Definition artifactName (pkg : Package) (manifests : AssetFunc) (file : string)
  : option string :=
  match manifests file with
  | inl data =>
      match Decode pkg data with
      | inl (ObjStorageVersionMigration required) => Some (Name (Meta required))
      | _ => None
      end
  | inr _ => None
  end.

(** Every file of a list has its manifest asked for in a log. *)
Definition attemptsEvery (files : list string) (log : list Action) : Prop :=
  forall file, file ∈ files -> file ∈ assetsOf log.

(** ** Sample runs *)

(** One apply of the sets request on the in-memory store. *)
Definition apply_sets_run : M Cluster ApplyResult :=
  applyStorageVersionMigration samplePackage (fakeMigrationClient noReactor)
    (clusterManagerAsset samplePackage) setsFile.

(** A create that the store refuses: the warning carries the store's
    error and so does the result. *)
Definition apply_sets_refused_run : M Cluster ApplyResult :=
  applyStorageVersionMigration samplePackage (fakeMigrationClient (forbidden "create"))
    (clusterManagerAsset samplePackage) setsFile.

(** The bindings request has drifted in the store; one apply of its
    manifest. *)
Definition drift_cluster : Cluster :=
  hub (sampleClusterManager None [mkCondition "Applied" "True"]) true [driftedBindings].

Definition drift_run : M Cluster ApplyResult :=
  applyStorageVersionMigration samplePackage (fakeMigrationClient noReactor)
    (clusterManagerAsset samplePackage) bindingsFile.

(** A hub whose cluster-manager is being deleted, with the CRD and both
    requests in the store; the removal loop when the store refuses
    deletes. *)
Definition deleting_hub : Cluster :=
  hub (sampleClusterManager (Some 1700000000000000000%Z) []) true
      [setsMigration; bindingsMigration].

Definition remove_forbidden_run : M Cluster (option error) :=
  removeStorageVersionMigrations samplePackage (fakeController (forbidden "delete")).

(** The removal of the sets request. *)
Definition remove_absent_run : M Cluster (option error) :=
  removeStorageVersionMigration samplePackage (fakeMigrationClient noReactor)
    (clusterManagerAsset samplePackage) setsFile.

(** Runs of [sync] on the in-memory hub, for the key [cluster-manager]. *)
Definition sync_run : M Cluster (option error) :=
  sync samplePackage (fakeController noReactor) "cluster-manager".

Definition sync_forbidden_run : M Cluster (option error) :=
  sync samplePackage (fakeController (forbidden "delete")) "cluster-manager".

(** A delete by name is in the log for every name of a list. *)
Definition removesEvery (names : list string) (log : list Action) : Prop :=
  forall name, name ∈ names -> name ∈ deletesOf log.

Definition waiting_hub : Cluster :=
  hub (sampleClusterManager None [mkCondition "Applied" "False"]) true [].

Definition bare_hub : Cluster :=
  hub (sampleClusterManager None [mkCondition "Applied" "True"]) false [].

Definition deleting_bare_hub : Cluster :=
  hub (sampleClusterManager (Some 1700000000000000000%Z) [mkCondition "Applied" "True"])
      false [setsMigration; bindingsMigration].

(** ** Kinds of log entries *)

(** An event handed to the recorder, normal or warning. *)
Definition isRecorded (a : Action) : bool :=
  match a with ActEventf _ _ | ActWarningf _ _ _ => true | _ => false end.

Definition isGet (a : Action) : bool :=
  match a with ActGet _ _ => true | _ => false end.

(** What one apply can log: its manifest, calls of get, create and update
    and events. *)
Definition isApplyStep (a : Action) : bool :=
  match a with
  | ActAsset _ _ | ActGet _ _ | ActCreate _ _ | ActUpdate _ _
  | ActEventf _ _ | ActWarningf _ _ _ => true
  | _ => false
  end.

(** What one removal can log: its manifest and a delete. *)
Definition isRemoveStep (a : Action) : bool :=
  match a with
  | ActAsset _ _ | ActDelete _ _ => true
  | _ => false
  end.

(** The objects sent by create calls, in order. *)
Definition createPayloads (log : list Action) : list StorageVersionMigration :=
  omap (fun a => match a with ActCreate o _ => Some o | _ => None end) log.

(** The seven ways through [sync], each with its result, final state and
    log. *)
Inductive SyncPath {St : Type} (pkg : Package) (c : crdMigrationController St)
    (key : string) (s : St) : option error -> St -> list Action -> Prop :=
| SyncGone partial err s1 :
    listerGet (clusterManagerLister c) key s = (RespErr partial err, s1) ->
    IsNotFound err = true ->
    SyncPath pkg c key s None s1 [ActListerGet key (RespErr partial err)]
| SyncLookupFailed partial err s1 :
    listerGet (clusterManagerLister c) key s = (RespErr partial err, s1) ->
    IsNotFound err = false ->
    SyncPath pkg c key s (Some err) s1 [ActListerGet key (RespErr partial err)]
| SyncCRDFailed cm s1 e s2 :
    listerGet (clusterManagerLister c) key s = (RespOk cm, s1) ->
    crdGet (apiExtensionClient c) migrationRequestCRDName s1 = (Some e, s2) ->
    IsNotFound e = false ->
    SyncPath pkg c key s (Some e) s2
      [ActListerGet key (RespOk cm); ActCRDGet migrationRequestCRDName (Some e)]
| SyncUnsupported cm s1 e s2 :
    listerGet (clusterManagerLister c) key s = (RespOk cm, s1) ->
    crdGet (apiExtensionClient c) migrationRequestCRDName s1 = (Some e, s2) ->
    IsNotFound e = true ->
    SyncPath pkg c key s None s2
      [ActListerGet key (RespOk cm); ActCRDGet migrationRequestCRDName (Some e)]
| SyncRemoving cm s1 s2 r s3 l3 :
    listerGet (clusterManagerLister c) key s = (RespOk cm, s1) ->
    crdGet (apiExtensionClient c) migrationRequestCRDName s1 = (None, s2) ->
    IsZero (DeletionTimestamp cm) = false ->
    run (removeStorageVersionMigrations pkg c) s2 = (r, s3, l3) ->
    SyncPath pkg c key s r s3
      ([ActListerGet key (RespOk cm); ActCRDGet migrationRequestCRDName None] ++ l3)%list
| SyncWaiting cm s1 s2 :
    listerGet (clusterManagerLister c) key s = (RespOk cm, s1) ->
    crdGet (apiExtensionClient c) migrationRequestCRDName s1 = (None, s2) ->
    IsZero (DeletionTimestamp cm) = true ->
    IsStatusConditionTrue (Conditions cm) clusterManagerApplied = false ->
    SyncPath pkg c key s None s2
      [ActListerGet key (RespOk cm); ActCRDGet migrationRequestCRDName None;
       ActAddAfter key (5 * Second)]
| SyncApplying cm s1 s2 r s3 l3 :
    listerGet (clusterManagerLister c) key s = (RespOk cm, s1) ->
    crdGet (apiExtensionClient c) migrationRequestCRDName s1 = (None, s2) ->
    IsZero (DeletionTimestamp cm) = true ->
    IsStatusConditionTrue (Conditions cm) clusterManagerApplied = true ->
    run (applyStorageVersionMigrations pkg c) s2 = (r, s3, l3) ->
    SyncPath pkg c key s r s3
      ([ActListerGet key (RespOk cm); ActCRDGet migrationRequestCRDName None] ++ l3)%list.

(** A package whose file system lacks the sets manifest. *)
Definition bindingsOnlyPackage : Package :=
  {| ReadFile := fun name =>
       if String.eqb name setsFile then inr (PathError "open" name)
       else sampleReadFile name;
     MustCreateAssetFromTemplate := fun _ template => template;
     Decode := sampleDecode;
     EnsureObjectMeta := overlayObjectMeta |}.

(** A hub ready for the migrations: the CRD is there and the
    cluster-manager is Applied. *)
Definition applied_hub : Cluster :=
  hub (sampleClusterManager None [mkCondition "Applied" "True"]) true [].

(** A hub whose CRD lookup is refused. *)
Definition refusingApiext : ApiextensionsInterface Cluster :=
  {| crdGet := fun name s => (Some (StatusError StatusReasonForbidden "forbidden"), s) |}.

Definition refusedController : crdMigrationController Cluster :=
  {| clusterManagerLister := fakeLister;
     apiExtensionClient := refusingApiext;
     migrationClient := fakeMigrationClient noReactor |}.

(** ** The package's test helpers

    A helper of [migration_controller_test.go] either returns, having
    called [t.Errorf] some number of times, or ends the test in
    [t.Fatalf], or panics. *)

Inductive Failure :=
| UnexpectedError (err : error)
| WrongCallCount (expected actual : nat)
| WrongVerb (expected : string) (action : Action)
| NotAMigration (object : Object)
| WrongName (expected actual : string).

Inductive Verdict :=
| Returns (errors : list Failure)
| Fatal (errors : list Failure)
| Panics (errors : list Failure).

(** Statements one after the other: the second runs only when the first
    returned, and the failures add up. *)
Definition andThen (v : Verdict) (k : Verdict) : Verdict :=
  match v with
  | Returns e1 =>
      match k with
      | Returns e2 => Returns (e1 ++ e2)
      | Fatal e2 => Fatal (e1 ++ e2)
      | Panics e2 => Panics (e1 ++ e2)
      end
  | Fatal e1 => Fatal e1
  | Panics e1 => Panics e1
  end.

(** The loop of [assertActions] from index [i] on; indexing past the end
    of [actualActions] panics. *)
Fixpoint assertActionsFrom (actualActions : list Action) (i : nat)
    (expectedVerbs : list string) (errors : list Failure) : Verdict :=
  match expectedVerbs with
  | [] => Returns errors
  | expected :: rest =>
      match actualActions !! i with
      | None => Panics errors
      | Some a =>
          assertActionsFrom actualActions (S i) rest
            (if decide (verb a = Some expected) then errors
             else errors ++ [WrongVerb expected a])
      end
  end.

(** [assertActions]. *)
Definition assertActions (actualActions : list Action) (expectedVerbs : list string)
  : Verdict :=
  if decide (length actualActions = length expectedVerbs)
  then assertActionsFrom actualActions 0 expectedVerbs []
  else Fatal [WrongCallCount (length expectedVerbs) (length actualActions)].

(** [assertNoActions]. *)
Definition assertNoActions (actualActions : list Action) : Verdict :=
  assertActions actualActions [].

(** [assertStorageVersionMigration]: after a failed type assertion
    [migration] is a nil pointer, and reading its name panics. *)
Definition assertStorageVersionMigration (name : string) (object : Object) : Verdict :=
  match object with
  | ObjStorageVersionMigration migration =>
      if decide (Name (Meta migration) = name) then Returns []
      else Returns [WrongName name (Name (Meta migration))]
  | ObjOther _ _ => Panics [NotAMigration object]
  end.

(** [Actions()] of the fake migration clientset: the calls made to it. *)
Definition isClientCall (a : Action) : bool :=
  match verb a with Some _ => true | None => false end.

Definition clientActions (log : list Action) : list Action :=
  List.filter isClientCall log.

(** [actions[i].(clienttesting.CreateActionImpl).Object] and its update
    counterpart: [None] stands for the panic of an index out of range or
    of a failed type assertion. *)
Definition createdObject (actions : list Action) (i : nat) : option Object :=
  match actions !! i with
  | Some (ActCreate o _) => Some (ObjStorageVersionMigration o)
  | _ => None
  end.

Definition updatedObject (actions : list Action) (i : nat) : option Object :=
  match actions !! i with
  | Some (ActUpdate o _) => Some (ObjStorageVersionMigration o)
  | _ => None
  end.

(** [validateActions] of the case [created] of
    [TestApplyStorageVersionMigrations]. *)
Definition validateCreated (actions : list Action) : Verdict :=
  andThen (assertActions actions ["get"; "create"; "get"; "create"])
    match createdObject actions 1 with
    | None => Panics []
    | Some actual =>
        andThen (assertStorageVersionMigration setsName actual)
          match createdObject actions 3 with
          | None => Panics []
          | Some actual => assertStorageVersionMigration bindingsName actual
          end
    end.

(** [validateActions] of the case [created and updated]. *)
Definition validateCreatedAndUpdated (actions : list Action) : Verdict :=
  andThen (assertActions actions ["get"; "create"; "get"; "update"])
    match createdObject actions 1 with
    | None => Panics []
    | Some actual =>
        andThen (assertStorageVersionMigration setsName actual)
          match updatedObject actions 3 with
          | None => Panics []
          | Some actual => assertStorageVersionMigration bindingsName actual
          end
    end.

(** The body of one case of [TestApplyStorageVersionMigrations]: a fake
    clientset over [existingObjects], one run of
    [applyStorageVersionMigrations], a fatal failure on an error, the
    validation of the recorded actions otherwise. *)
Definition testApplyStorageVersionMigrations (pkg : Package)
    (existingObjects : list StorageVersionMigration)
    (validateActions : list Action -> Verdict) : Verdict :=
  let fake :=
    {| clusterManagers := ∅; crds := ∅;
       migrations := list_to_map (map (fun o => (Name (Meta o), o)) existingObjects) |} in
  let '(err, _, log) :=
    run (applyStorageVersionMigrations pkg (fakeController noReactor)) fake in
  match err with
  | Some e => Fatal [UnexpectedError e]
  | None => validateActions (clientActions log)
  end.

(** The object the case [created and updated] puts in the store: the
    name of the bindings request and nothing else. *)
Definition bareBindings : StorageVersionMigration :=
  {| Meta := sampleMeta bindingsName;
     Spec := {| SpecResource := {| Group := ""; Version := ""; Resource := "" |};
                ContinueToken := "" |};
     StatusConditions := [] |}.

(** One apply of the sets request when its manifest is missing. *)
Definition apply_missing_run : M Cluster ApplyResult :=
  applyStorageVersionMigration bindingsOnlyPackage (fakeMigrationClient noReactor)
    (clusterManagerAsset bindingsOnlyPackage) setsFile.

(** ** Properties *)

(** Membership in a log that is written out: case analysis on a
    hypothesis, search for a goal. *)
Ltac log_cases :=
  repeat match goal with
    | H : exists _, _ |- _ => destruct H
    | H : _ \/ _ |- _ => destruct H
    | H : _ ∈ [] |- _ => apply elem_of_nil in H; destruct H
    | H : _ ∈ _ :: _ |- _ => apply elem_of_cons in H; destruct H
    | H : @eq Action _ _ |- _ => discriminate H || (injection H as ?; subst)
    | H : @eq (Resp _) _ _ |- _ => discriminate H || (injection H as ?; subst)
    end.

Ltac log_find :=
  repeat eexists; rewrite !list_elem_of_In; cbn; eauto 10.

Ltac log_solver :=
  intros; log_cases; subst; try discriminate; try reflexivity; try log_find.

Section ApplyFacts.
Context {St : Type}.
Variable pkg : Package.
Variable client : StorageVersionMigrationsGetter St.
Variable manifests : AssetFunc.

Lemma apply_path (file : string) (s : St) r s' l :
  run (applyStorageVersionMigration pkg client manifests file) s = (r, s', l) ->
  ApplyPath pkg client manifests file s r s' l.
Proof.
  unfold run, applyStorageVersionMigration, callAsset, bind, call, emit, ret.
  destruct (manifests file) as [data|err] eqn:Hm; cbn;
    [|intros [= <- <- <-]; by constructor].
  destruct (Decode pkg data) as [[required|kind name]|err] eqn:Hd; cbn;
    [|intros [= <- <- <-]; by econstructor..].
  destruct (svmGet client (Name (Meta required)) s)
    as [[existing|partial err] s1] eqn:Hg; cbn.
  - destruct (EnsureObjectMeta pkg false (Meta existing) (Meta required))
      as [m meta] eqn:He.
    assert (Hw : setMeta existing meta = workingCopy pkg existing required)
      by (unfold workingCopy; by rewrite He).
    assert (Hn : needsUpdate pkg existing required
                 = m || negb (SemanticDeepEqualSpec (Spec existing) (Spec required)))
      by (unfold needsUpdate; by rewrite He).
    rewrite Hw.
    destruct (SemanticDeepEqualSpec (Spec existing) (Spec required)) eqn:Heq;
      destruct m; cbn in *;
      try (intros [= <- <- <-]; by econstructor);
      destruct (svmUpdate client (workingCopy pkg existing required) s1)
        as [[actual|actual uerr] s2] eqn:Hu; cbn;
      intros [= <- <- <-]; by econstructor.
  - destruct (IsNotFound err) eqn:Hnf; cbn;
      [|intros [= <- <- <-]; by econstructor].
    destruct (svmCreate client required s1) as [[actual|actual cerr] s2] eqn:Hc; cbn;
      intros [= <- <- <-]; by econstructor.
Qed.

End ApplyFacts.

(** *** The package's tests, replayed on the in-memory store *)

(** [TestSupportStorageVersionMigration]. *)
Example test_support_storage_version_migration :
  resultOf (supportStorageVersionMigration (fakeController noReactor)) emptyCluster
  = (false, None)
  /\ resultOf (supportStorageVersionMigration (fakeController noReactor)) waiting_hub
     = (true, None).
Proof. split; reflexivity. Qed.

(** [TestApplyStorageVersionMigrations], case [created]. *)
Example test_apply_created :
  resultOf (applyStorageVersionMigrations samplePackage (fakeController noReactor))
    emptyCluster = None
  /\ omap verb
       (logOf (applyStorageVersionMigrations samplePackage (fakeController noReactor))
          emptyCluster)
     = ["get"; "create"; "get"; "create"].
Proof. split; vm_compute; reflexivity. Qed.

(** [TestApplyStorageVersionMigrations], case [created and updated]. *)
Example test_apply_created_and_updated :
  resultOf (applyStorageVersionMigrations samplePackage (fakeController noReactor))
    (hub (sampleClusterManager None []) true
         [setSpec bindingsMigration (Spec driftedBindings)]) = None
  /\ omap verb
       (logOf (applyStorageVersionMigrations samplePackage (fakeController noReactor))
          (hub (sampleClusterManager None []) true
               [setSpec bindingsMigration (Spec driftedBindings)]))
     = ["get"; "create"; "get"; "update"].
Proof. split; vm_compute; reflexivity. Qed.

Section ApplyClaims.
Context {St : Type}.
Variable pkg : Package.
Variable client : StorageVersionMigrationsGetter St.
Variable manifests : AssetFunc.

(** C10.  The [changed] flag of [applyStorageVersionMigration] is true
    exactly when the call issued a create or an update against the store,
    whether or not that call succeeded; it is false when the manifest is
    missing, does not decode, decodes to another kind, when the get fails
    with an error other than NotFound, and when nothing differs. *)
Theorem changed_iff_create_or_update_attempted (file : string) (s : St) r s' l :
  run (applyStorageVersionMigration pkg client manifests file) s = (r, s', l) ->
  changedOf r = existsb (fun a => isCreate a || isUpdate a) l
  /\ (forall err, manifests file = inr err -> changedOf r = false)
  /\ (forall data err,
        manifests file = inl data -> Decode pkg data = inr err ->
        changedOf r = false)
  /\ (forall data kind name,
        manifests file = inl data -> Decode pkg data = inl (ObjOther kind name) ->
        changedOf r = false)
  /\ (forall data required partial err s1,
        manifests file = inl data ->
        Decode pkg data = inl (ObjStorageVersionMigration required) ->
        svmGet client (Name (Meta required)) s = (RespErr partial err, s1) ->
        IsNotFound err = false ->
        changedOf r = false)
  /\ (forall data required existing s1,
        manifests file = inl data ->
        Decode pkg data = inl (ObjStorageVersionMigration required) ->
        svmGet client (Name (Meta required)) s = (RespOk existing, s1) ->
        needsUpdate pkg existing required = false ->
        changedOf r = false).
Proof.
  intros H%apply_path.
  split; [by destruct H|].
  repeat split; intros; destruct H; simplify_eq/=; done || congruence.
Qed.

(** C8.  [applyStorageVersionMigration] records a Created event exactly
    when a create call succeeded and a CreateFailed warning exactly when a
    create call failed, an Updated event exactly when an update call
    succeeded and an UpdateFailed warning exactly when an update call
    failed; the error of a failed create or update is the error the
    function returns. *)
Theorem apply_signals_follow_store_calls (file : string) (s : St) r s' l :
  run (applyStorageVersionMigration pkg client manifests file) s = (r, s', l) ->
  ((exists subj, ActEventf "StorageVersionMigrationCreated" subj ∈ l)
     <-> (exists o a, ActCreate o (RespOk a) ∈ l))
  /\ (forall e,
        (exists subj, ActWarningf "StorageVersionMigrationCreateFailed" subj e ∈ l)
        <-> (exists o p, ActCreate o (RespErr p e) ∈ l))
  /\ ((exists subj, ActEventf "StorageVersionMigrationUpdated" subj ∈ l)
        <-> (exists o a, ActUpdate o (RespOk a) ∈ l))
  /\ (forall e,
        (exists subj, ActWarningf "StorageVersionMigrationUpdateFailed" subj e ∈ l)
        <-> (exists o p, ActUpdate o (RespErr p e) ∈ l))
  /\ (forall o p e,
        ActCreate o (RespErr p e) ∈ l \/ ActUpdate o (RespErr p e) ∈ l ->
        errOf r = Some e).
Proof.
  intros H%apply_path.
  destruct H; repeat split; log_solver.
Qed.

End ApplyClaims.

Lemma changed_iff_create_or_update_attempted_witness :
  run apply_sets_run emptyCluster
  = (resultOf apply_sets_run emptyCluster,
     stateOf apply_sets_run emptyCluster,
     logOf apply_sets_run emptyCluster)
  /\ changedOf (resultOf apply_sets_run emptyCluster)
     = existsb (fun a => isCreate a || isUpdate a) (logOf apply_sets_run emptyCluster).
Proof.
  split; [reflexivity|].
  apply (changed_iff_create_or_update_attempted samplePackage
           (fakeMigrationClient noReactor) (clusterManagerAsset samplePackage)
           setsFile emptyCluster _ _ _ eq_refl).
Defined.

Lemma apply_signals_follow_store_calls_witness :
  run apply_sets_refused_run emptyCluster
  = (resultOf apply_sets_refused_run emptyCluster,
     stateOf apply_sets_refused_run emptyCluster,
     logOf apply_sets_refused_run emptyCluster)
  /\ (forall o p e,
        ActCreate o (RespErr p e) ∈ logOf apply_sets_refused_run emptyCluster
        \/ ActUpdate o (RespErr p e) ∈ logOf apply_sets_refused_run emptyCluster ->
        errOf (resultOf apply_sets_refused_run emptyCluster) = Some e).
Proof.
  split; [reflexivity|].
  apply (apply_signals_follow_store_calls samplePackage
           (fakeMigrationClient (forbidden "create")) (clusterManagerAsset samplePackage)
           setsFile emptyCluster _ _ _ eq_refl).
Defined.

(** Whatever [EnsureObjectMeta] does, the object sent on update has the
    spec the store returned: the desired spec is assigned to [existing],
    the update sends [existingCopy]. *)
Lemma update_payload_keeps_observed_spec {St : Type} (pkg : Package)
    (client : StorageVersionMigrationsGetter St) (manifests : AssetFunc)
    (file : string) (s : St) r s' l o :
  run (applyStorageVersionMigration pkg client manifests file) s = (r, s', l) ->
  o ∈ updatePayloads l ->
  exists name existing,
    ActGet name (RespOk existing) ∈ l /\ Spec o = Spec existing.
Proof.
  intros H%apply_path Ho.
  destruct H; cbn in Ho; log_cases; subst;
    do 2 eexists; (split; [log_find|reflexivity]).
Qed.

(** C1 (the code departs from the claim).  Whatever the client and the
    metadata merge, every object sent by an update call of
    [applyStorageVersionMigration] has the spec the store returned.  So
    when the store holds the bindings request with a spec that differs
    from the rendered one, one apply issues exactly one update and keeps
    the store's label, but the object it sends carries the observed spec,
    not the desired one, and the store still holds the observed spec
    afterwards. *)
Theorem drift_update_sends_observed_spec :
  (forall (St : Type) (pkg : Package) (client : StorageVersionMigrationsGetter St)
          (manifests : AssetFunc) (file : string) (s : St) r s' l o,
      run (applyStorageVersionMigration pkg client manifests file) s = (r, s', l) ->
      o ∈ updatePayloads l ->
      exists name existing,
        ActGet name (RespOk existing) ∈ l /\ Spec o = Spec existing)
  /\ Spec driftedBindings <> Spec bindingsMigration
  /\ omap verb (logOf drift_run drift_cluster) = ["get"; "update"]
  /\ updatePayloads (logOf drift_run drift_cluster) = [driftedBindings]
  /\ Spec <$> updatePayloads (logOf drift_run drift_cluster) = [Spec driftedBindings]
  /\ errOf (resultOf drift_run drift_cluster) = None
  /\ Spec <$> (migrations (stateOf drift_run drift_cluster) !! bindingsName)
     = Some (Spec driftedBindings).
Proof.
  split; [intros; by eapply update_payload_keeps_observed_spec|].
  split; [discriminate|].
  repeat split; vm_compute; reflexivity.
Qed.

(** C2.  On the in-memory store, starting with no migration request,
    two applies of the same manifest in a row issue one create and no
    update: the first returns [changed = true], the second returns the
    stored object with [changed = false] and leaves the store as it was,
    given that the metadata merge of an object with itself reports no
    modification. *)
Theorem apply_twice_creates_once (pkg : Package) (manifests : AssetFunc)
    (file : string) data required (s : Cluster) r1 s1 l1 r2 s2 l2 :
  manifests file = inl data ->
  Decode pkg data = inl (ObjStorageVersionMigration required) ->
  (EnsureObjectMeta pkg false (Meta required) (Meta required)).1 = false ->
  migrations s = ∅ ->
  run (applyStorageVersionMigration pkg (fakeMigrationClient noReactor) manifests file) s
    = (r1, s1, l1) ->
  run (applyStorageVersionMigration pkg (fakeMigrationClient noReactor) manifests file) s1
    = (r2, s2, l2) ->
  r1 = (Some required, true, None)
  /\ r2 = (Some required, false, None)
  /\ countb isCreate (l1 ++ l2) = 1
  /\ countb isUpdate (l1 ++ l2) = 0
  /\ countb isMutation l2 = 0
  /\ s2 = s1.
Proof.
  intros Hm Hd He Hs.
  unfold run, applyStorageVersionMigration, callAsset, bind, call, emit, ret.
  rewrite Hm; cbn. rewrite Hd; cbn. rewrite Hs, lookup_empty; cbn.
  rewrite Hs, lookup_empty; cbn.
  intros [= <- <- <-]. cbn. rewrite lookup_insert_eq; cbn.
  destruct (EnsureObjectMeta pkg false (Meta required) (Meta required)) as [m meta].
  cbn in He; subst m. unfold SemanticDeepEqualSpec.
  rewrite bool_decide_true by done. cbn.
  intros [= <- <- <-]. done.
Qed.

(** The reference merge never reports a change when it lays a metadata
    over itself. *)
Lemma overlayObjectMeta_self (m : ObjectMeta) :
  (overlayObjectMeta false m m).1 = false.
Proof.
  unfold overlayObjectMeta, SetStringIfSet, MergeMap.
  repeat case_decide; try congruence;
    by rewrite !bool_decide_true by reflexivity.
Qed.

Lemma apply_twice_creates_once_witness :
  countb isCreate
    (logOf apply_sets_run emptyCluster
     ++ logOf apply_sets_run (stateOf apply_sets_run emptyCluster)) = 1
  /\ countb isUpdate
       (logOf apply_sets_run emptyCluster
        ++ logOf apply_sets_run (stateOf apply_sets_run emptyCluster)) = 0
  /\ changedOf (resultOf apply_sets_run emptyCluster) = true
  /\ changedOf (resultOf apply_sets_run (stateOf apply_sets_run emptyCluster)) = false.
Proof.
  pose proof (apply_twice_creates_once samplePackage (clusterManagerAsset samplePackage)
                setsFile _ setsMigration emptyCluster
                (resultOf apply_sets_run emptyCluster)
                (stateOf apply_sets_run emptyCluster)
                (logOf apply_sets_run emptyCluster)
                (resultOf apply_sets_run (stateOf apply_sets_run emptyCluster))
                (stateOf apply_sets_run (stateOf apply_sets_run emptyCluster))
                (logOf apply_sets_run (stateOf apply_sets_run emptyCluster))
                eq_refl eq_refl (overlayObjectMeta_self _) eq_refl eq_refl eq_refl)
    as (H1 & H2 & H3 & H4 & _).
  split; [exact H3|].
  split; [exact H4|].
  split; [by rewrite H1|by rewrite H2].
Defined.

(** ** The two loops *)

Lemma assetsOf_app (l1 l2 : list Action) :
  assetsOf (l1 ++ l2) = (assetsOf l1 ++ assetsOf l2)%list.
Proof. apply omap_app. Qed.

Lemma deletesOf_app (l1 l2 : list Action) :
  deletesOf (l1 ++ l2) = (deletesOf l1 ++ deletesOf l2)%list.
Proof. apply omap_app. Qed.

Lemma countb_app (p : Action -> bool) (l1 l2 : list Action) :
  countb p (l1 ++ l2) = countb p l1 + countb p l2.
Proof. induction l1 as [|a l1 IH]; cbn; [done|]. rewrite IH. lia. Qed.

(** A chain of runs that each ask for exactly their own manifest asks
    for the manifests of the chain, in order. *)
Lemma attempts_assets {St R : Type} (f : string -> M St R) files s rs s' l :
  (forall file s0 r s1 l1, run (f file) s0 = (r, s1, l1) -> assetsOf l1 = [file]) ->
  Attempts f files s rs s' l ->
  assetsOf l = files.
Proof.
  intros Hf. induction 1 as [|file rest s r s1 l1 rs s2 l2 Hrun _ IH]; [done|].
  rewrite assetsOf_app, (Hf _ _ _ _ _ Hrun), IH. done.
Qed.

Section Loops.
Context {St : Type}.
Variable pkg : Package.
Variable c : crdMigrationController St.

Lemma apply_asset_once manifests file (s : St) r s1 l1 :
  run (applyStorageVersionMigration pkg (migrationClient c) manifests file) s = (r, s1, l1) ->
  assetsOf l1 = [file].
Proof. intros H%apply_path. by destruct H. Qed.

Lemma remove_asset_once manifests file (s : St) r s1 l1 :
  run (removeStorageVersionMigration pkg (migrationClient c) manifests file) s = (r, s1, l1) ->
  assetsOf l1 = [file].
Proof.
  unfold run, removeStorageVersionMigration, callAsset, bind, call, ret.
  destruct (manifests file) as [data|err]; cbn; [|by intros [= <- <- <-]].
  destruct (Decode pkg data) as [[required|kind name]|err]; cbn;
    [|by intros [= <- <- <-]..].
  destruct (svmDelete (migrationClient c) (Name (Meta required)) s) as [[e|] s2]; cbn;
    [destruct (IsNotFound e)|]; by intros [= <- <- <-].
Qed.

Lemma applyLoop_attempts files errs (s : St) errs' s' l :
  run (applyLoop pkg c files errs) s = (errs', s', l) ->
  exists outcomes,
    Attempts (applyStorageVersionMigration pkg (migrationClient c) (clusterManagerAsset pkg))
      files s outcomes s' l
    /\ errs' = (errs ++ omap errOf outcomes)%list.
Proof.
  revert errs s errs' s' l.
  induction files as [|file rest IH]; intros errs s errs' s' l.
  - intros [= <- <- <-]. exists []. split; [constructor|by rewrite app_nil_r].
  - cbn [applyLoop]. unfold run, bind.
    destruct (applyStorageVersionMigration pkg (migrationClient c)
                (clusterManagerAsset pkg) file s) as [[r s1] l1] eqn:Hrun.
    destruct r as [[obj changed] [err|]]; cbn [snd];
      match goal with
      | |- context [applyLoop pkg c rest ?e s1] =>
          destruct (applyLoop pkg c rest e s1) as [[errs2 s2] l2] eqn:Hrest
      end;
      intros [= <- <- <-];
      apply IH in Hrest as (outcomes & Hatt & ->);
      eexists (_ :: outcomes); (split; [by econstructor|]); cbn.
    + by rewrite <- app_assoc.
    + done.
Qed.

Lemma removeLoop_attempts files (s : St) r s' l :
  run (removeLoop pkg c files) s = (r, s', l) ->
  exists done outcomes,
    Attempts (removeStorageVersionMigration pkg (migrationClient c) (clusterManagerAsset pkg))
      done s outcomes s' l
    /\ done `prefix_of` files
    /\ ((r = None /\ done = files /\ Forall (eq None) outcomes)
        \/ (exists e pre, r = Some e /\ outcomes = (pre ++ [Some e])%list
                          /\ Forall (eq None) pre)).
Proof.
  revert s r s' l.
  induction files as [|file rest IH]; intros s r s' l.
  - intros [= <- <- <-]. exists [], [].
    split; [constructor|]. split; [done|].
    left. split; [done|]. split; [done|constructor].
  - cbn [removeLoop]. unfold run, bind.
    destruct (removeStorageVersionMigration pkg (migrationClient c)
                (clusterManagerAsset pkg) file s) as [[e1 s1] l1] eqn:Hrun.
    destruct e1 as [e|].
    + cbn. intros [= <- <- <-].
      exists [file], [Some e]. split.
      { econstructor; [exact Hrun|constructor]. }
      split; [by apply prefix_cons, prefix_nil|].
      right. exists e, []. split; [done|]. split; [done|constructor].
    + destruct (removeLoop pkg c rest s1) as [[r2 s2] l2] eqn:Hrest.
      intros [= <- <- <-].
      apply IH in Hrest as (done & outcomes & Hatt & Hpre & Hcase).
      exists (file :: done), (None :: outcomes).
      split; [by econstructor|].
      split; [by apply prefix_cons|].
      destruct Hcase as [(-> & -> & Hall)|(e & pre & -> & -> & Hall)].
      * left. split; [done|]. split; [done|by constructor].
      * right. exists e, (None :: pre).
        split; [done|]. split; [done|by constructor].
Qed.

End Loops.

(** C3, as stated, fails for the remove loop: when the store refuses the
    first delete, the loop returns that error as it is and never turns to
    the second artifact. *)
Lemma remove_skips_after_first_failure :
  resultOf remove_forbidden_run deleting_hub
  = Some (StatusError StatusReasonForbidden "forbidden")
  /\ assetsOf (logOf remove_forbidden_run deleting_hub) = [setsFile]
  /\ ~ attemptsEvery migrationRequestFiles (logOf remove_forbidden_run deleting_hub).
Proof.
  split; [reflexivity|]. split; [reflexivity|].
  intros H. specialize (H bindingsFile).
  assert (Hin : bindingsFile ∈ migrationRequestFiles)
    by (apply list_elem_of_In; cbn; auto).
  apply H in Hin. vm_compute in Hin.
  apply list_elem_of_singleton in Hin. discriminate Hin.
Qed.

(** C3 (amended).  [applyStorageVersionMigrations] runs the apply of
    every migration request file, one after the other whatever the
    earlier ones returned, and returns the aggregate of all their errors
    ([nil] when there is none).  [removeStorageVersionMigrations] runs the
    removals in order up to the first one that fails and returns that
    error alone; it reaches every file only when none fails. *)
Theorem apply_aggregates_remove_stops {St : Type} (pkg : Package)
    (c : crdMigrationController St) (s : St) :
  (forall r s' l,
     run (applyStorageVersionMigrations pkg c) s = (r, s', l) ->
     exists outcomes,
       Attempts (applyStorageVersionMigration pkg (migrationClient c) (clusterManagerAsset pkg))
         migrationRequestFiles s outcomes s' l
       /\ assetsOf l = migrationRequestFiles
       /\ r = NewMultiLineAggregate (omap errOf outcomes))
  /\ (forall r s' l,
        run (removeStorageVersionMigrations pkg c) s = (r, s', l) ->
        exists done outcomes,
          Attempts (removeStorageVersionMigration pkg (migrationClient c)
                      (clusterManagerAsset pkg))
            done s outcomes s' l
          /\ assetsOf l = done
          /\ done `prefix_of` migrationRequestFiles
          /\ ((r = None /\ done = migrationRequestFiles /\ Forall (eq None) outcomes)
              \/ (exists e pre, r = Some e /\ outcomes = (pre ++ [Some e])%list
                                /\ Forall (eq None) pre))).
Proof.
  split; intros r s' l.
  - unfold applyStorageVersionMigrations, run, bind, ret.
    destruct (applyLoop pkg c migrationRequestFiles [] s) as [[errs s1] l1] eqn:Hloop.
    intros [= <- <- <-].
    apply applyLoop_attempts in Hloop as (outcomes & Hatt & ->).
    exists outcomes. rewrite app_nil_r.
    split; [done|]. split; [|done].
    eapply attempts_assets; [|exact Hatt].
    intros ?????; apply apply_asset_once.
  - intros H. apply removeLoop_attempts in H as (done & outcomes & Hatt & Hpre & Hcase).
    exists done, outcomes. split; [done|]. split; [|done].
    eapply attempts_assets; [|exact Hatt].
    intros ?????; apply remove_asset_once.
Qed.

Lemma apply_aggregates_remove_stops_witness :
  exists done outcomes,
    Attempts (removeStorageVersionMigration samplePackage
                (fakeMigrationClient (forbidden "delete"))
                (clusterManagerAsset samplePackage))
      done deleting_hub outcomes
      (stateOf remove_forbidden_run deleting_hub)
      (logOf remove_forbidden_run deleting_hub)
    /\ assetsOf (logOf remove_forbidden_run deleting_hub) = done
    /\ done `prefix_of` migrationRequestFiles
    /\ ((resultOf remove_forbidden_run deleting_hub = None
         /\ done = migrationRequestFiles /\ Forall (eq None) outcomes)
        \/ (exists e pre,
              resultOf remove_forbidden_run deleting_hub = Some e
              /\ outcomes = (pre ++ [Some e])%list /\ Forall (eq None) pre)).
Proof.
  apply (proj2 (apply_aggregates_remove_stops samplePackage
                  (fakeController (forbidden "delete")) deleting_hub)
           (resultOf remove_forbidden_run deleting_hub)
           (stateOf remove_forbidden_run deleting_hub)
           (logOf remove_forbidden_run deleting_hub) eq_refl).
Defined.

(** ** [sync] *)

Section SyncClaims.
Context {St : Type}.
Variable pkg : Package.
Variable c : crdMigrationController St.

(** C9.  When the lister has no ClusterManager under the queue key,
    [sync] returns nil and the lookup is the only call it makes; a lookup
    that fails with any other error makes [sync] return that error, again
    after the lookup alone. *)
Theorem sync_missing_cluster_manager (key : string) (s : St) partial err s1 r s' l :
  listerGet (clusterManagerLister c) key s = (RespErr partial err, s1) ->
  run (sync pkg c key) s = (r, s', l) ->
  l = [ActListerGet key (RespErr partial err)]
  /\ s' = s1
  /\ countb isStoreCall l = 1
  /\ countb isMutation l = 0
  /\ (IsNotFound err = true -> r = None)
  /\ (IsNotFound err = false -> r = Some err)
  /\ (forall e, r = Some e -> e = err /\ IsNotFound err = false).
Proof.
  intros Hget. unfold run, sync, bind, call. rewrite Hget.
  destruct (IsNotFound err) eqn:Hnf; cbn; intros [= <- <- <-];
    repeat split; try done; congruence.
Qed.

(** C5.  When the ClusterManager exists and the StorageVersionMigration
    CRD is reported as not found, [sync] returns nil after the two
    lookups: no create, update or delete is issued. *)
Theorem sync_without_crd (key : string) (s : St) cm s1 e s2 r s' l :
  listerGet (clusterManagerLister c) key s = (RespOk cm, s1) ->
  crdGet (apiExtensionClient c) migrationRequestCRDName s1 = (Some e, s2) ->
  IsNotFound e = true ->
  run (sync pkg c key) s = (r, s', l) ->
  r = None
  /\ l = [ActListerGet key (RespOk cm); ActCRDGet migrationRequestCRDName (Some e)]
  /\ countb isMutation l = 0
  /\ s' = s2.
Proof.
  intros Hget Hcrd Hnf.
  unfold run, sync, supportStorageVersionMigration, bind, call.
  rewrite Hget; cbn. rewrite Hcrd; cbn. rewrite Hnf; cbn.
  by intros [= <- <- <-].
Qed.

(** C6.  When the ClusterManager exists, the CRD is there, no deletion
    is under way and the Applied condition is not true, [sync] returns
    nil, issues no create, update or delete, and adds its own key back to
    the queue once, after five seconds. *)
Theorem sync_waits_for_applied (key : string) (s : St) cm s1 s2 r s' l :
  listerGet (clusterManagerLister c) key s = (RespOk cm, s1) ->
  crdGet (apiExtensionClient c) migrationRequestCRDName s1 = (None, s2) ->
  IsZero (DeletionTimestamp cm) = true ->
  IsStatusConditionTrue (Conditions cm) clusterManagerApplied = false ->
  run (sync pkg c key) s = (r, s', l) ->
  r = None
  /\ l = [ActListerGet key (RespOk cm); ActCRDGet migrationRequestCRDName None;
          ActAddAfter key 5000000000]
  /\ countb isMutation l = 0
  /\ countb isAddAfter l = 1
  /\ s' = s2.
Proof.
  intros Hget Hcrd Hdel Happ.
  unfold run, sync, supportStorageVersionMigration, bind, call, emit.
  rewrite Hget; cbn. rewrite Hcrd; cbn. rewrite Hdel, Happ; cbn.
  by intros [= <- <- <-].
Qed.

End SyncClaims.

Section RemoveFacts.
Context {St : Type}.
Variable pkg : Package.
Variable c : crdMigrationController St.

Lemma remove_steps manifests file (s : St) r s1 l1 :
  run (removeStorageVersionMigration pkg (migrationClient c) manifests file) s = (r, s1, l1) ->
  countb isAddAfter l1 = 0
  /\ (r = None ->
      exists name, artifactName pkg manifests file = Some name /\ deletesOf l1 = [name]).
Proof.
  unfold run, removeStorageVersionMigration, artifactName, callAsset, bind, call, ret.
  destruct (manifests file) as [data|err]; cbn; [|by intros [= <- <- <-]].
  destruct (Decode pkg data) as [[required|kind name]|err]; cbn;
    [|by intros [= <- <- <-]..].
  destruct (svmDelete (migrationClient c) (Name (Meta required)) s) as [[e|] s2]; cbn;
    [destruct (IsNotFound e)|]; intros [= <- <- <-]; cbn; split; eauto; done.
Qed.

Lemma removeLoop_steps files (s : St) r s' l :
  run (removeLoop pkg c files) s = (r, s', l) ->
  countb isAddAfter l = 0
  /\ (r = None ->
      Forall2 (fun file name => artifactName pkg (clusterManagerAsset pkg) file = Some name)
        files (deletesOf l)).
Proof.
  revert s r s' l.
  induction files as [|file rest IH]; intros s r s' l.
  - intros [= <- <- <-]. split; [done|constructor].
  - cbn [removeLoop]. unfold run, bind.
    destruct (removeStorageVersionMigration pkg (migrationClient c)
                (clusterManagerAsset pkg) file s) as [[e1 s1] l1] eqn:Hrun.
    apply remove_steps in Hrun as [Hq Hdel].
    destruct e1 as [e|].
    + cbn. intros [= <- <- <-]. rewrite app_nil_r. by split.
    + destruct (removeLoop pkg c rest s1) as [[r2 s2] l2] eqn:Hrest.
      intros [= <- <- <-].
      apply IH in Hrest as [Hq2 Hdel2].
      rewrite countb_app, deletesOf_app, Hq, Hq2.
      split; [done|]. intros ->.
      destruct (Hdel eq_refl) as (name & Hname & ->).
      constructor; [done|]. by apply Hdel2.
Qed.

(** C7 (amended).  When the cluster-manager is being deleted, [sync]
    never adds the key back to the queue, whatever the Applied condition
    says.  Once the CRD check has found the CRD, [sync] is the run of
    [removeStorageVersionMigrations] and returns its result; when that
    result is nil, one delete by name has been issued for every migration
    request file, in order. *)
Theorem sync_deleting_runs_removal (key : string) (s : St) cm s1 r s' l :
  listerGet (clusterManagerLister c) key s = (RespOk cm, s1) ->
  IsZero (DeletionTimestamp cm) = false ->
  run (sync pkg c key) s = (r, s', l) ->
  countb isAddAfter l = 0
  /\ (forall s2,
        crdGet (apiExtensionClient c) migrationRequestCRDName s1 = (None, s2) ->
        exists l3,
          run (removeStorageVersionMigrations pkg c) s2 = (r, s', l3)
          /\ l = ([ActListerGet key (RespOk cm);
                   ActCRDGet migrationRequestCRDName None] ++ l3)%list
          /\ (r = None ->
              Forall2 (fun file name =>
                         artifactName pkg (clusterManagerAsset pkg) file = Some name)
                migrationRequestFiles (deletesOf l))).
Proof.
  intros Hget Hdel.
  unfold run, sync, supportStorageVersionMigration, bind, call.
  remember (removeStorageVersionMigrations pkg c) as rm eqn:Erm.
  rewrite Hget; cbn.
  destruct (crdGet (apiExtensionClient c) migrationRequestCRDName s1)
    as [[e|] s2] eqn:Hcrd; cbn.
  - destruct (IsNotFound e); cbn; intros [= <- <- <-];
      (split; [done|intros ? [=]]).
  - rewrite Hdel; cbn.
    destruct (rm s2) as [[r3 s3] l3] eqn:Hrm.
    intros [= <- <- <-]. subst rm.
    pose proof (removeLoop_steps _ _ _ _ _ Hrm) as [Hq Hall].
    split; [exact Hq|].
    intros s2' [= <-]. exists l3. unfold run. by rewrite Hrm.
Qed.

End RemoveFacts.

(** C4.  [removeStorageVersionMigration] asks the store to delete the
    object by the name in the manifest, whatever that name is.  A
    NotFound answer makes it return nil and any other error is returned
    as it is; on the in-memory store the removal of an object that is
    not there returns nil and leaves the store unchanged. *)
Theorem remove_absent_is_success :
  (forall (St : Type) (pkg : Package) (client : StorageVersionMigrationsGetter St)
          (manifests : AssetFunc) (file : string) data required (s : St)
          derr s1 r s' l,
      manifests file = inl data ->
      Decode pkg data = inl (ObjStorageVersionMigration required) ->
      svmDelete client (Name (Meta required)) s = (derr, s1) ->
      run (removeStorageVersionMigration pkg client manifests file) s = (r, s', l) ->
      l = [ActAsset file (inl data); ActDelete (Name (Meta required)) derr]
      /\ s' = s1
      /\ (forall e, derr = Some e -> IsNotFound e = true -> r = None)
      /\ (forall e, derr = Some e -> IsNotFound e = false -> r = Some e)
      /\ (derr = None -> r = None))
  /\ (forall (pkg : Package) (manifests : AssetFunc) (file : string) data required
             (s : Cluster) r s' l,
        manifests file = inl data ->
        Decode pkg data = inl (ObjStorageVersionMigration required) ->
        migrations s !! Name (Meta required) = None ->
        run (removeStorageVersionMigration pkg (fakeMigrationClient noReactor)
               manifests file) s = (r, s', l) ->
        r = None /\ s' = s /\ countb isDelete l = 1).
Proof.
  split.
  - intros St pkg client manifests file data required s derr s1 r s' l Hm Hd Hdel.
    unfold run, removeStorageVersionMigration, callAsset, bind, call, ret.
    rewrite Hm; cbn. rewrite Hd; cbn. rewrite Hdel; cbn.
    destruct derr as [e|]; [destruct (IsNotFound e) eqn:Hnf|];
      cbn; intros [= <- <- <-]; repeat split; intros; simplify_eq; congruence.
  - intros pkg manifests file data required s r s' l Hm Hd Habs.
    unfold run, removeStorageVersionMigration, callAsset, bind, call, ret.
    rewrite Hm; cbn. rewrite Hd; cbn. rewrite Habs; cbn.
    by intros [= <- <- <-].
Qed.

Lemma remove_absent_is_success_witness :
  migrations emptyCluster !! Name (Meta setsMigration) = None
  /\ resultOf remove_absent_run emptyCluster = None
  /\ stateOf remove_absent_run emptyCluster = emptyCluster
  /\ countb isDelete (logOf remove_absent_run emptyCluster) = 1.
Proof.
  split; [reflexivity|].
  apply (proj2 remove_absent_is_success samplePackage (clusterManagerAsset samplePackage)
           setsFile _ setsMigration emptyCluster
           (resultOf remove_absent_run emptyCluster)
           (stateOf remove_absent_run emptyCluster)
           (logOf remove_absent_run emptyCluster)
           eq_refl eq_refl eq_refl eq_refl).
Defined.

Lemma sync_missing_cluster_manager_witness :
  resultOf sync_run emptyCluster = None
  /\ countb isStoreCall (logOf sync_run emptyCluster) = 1.
Proof.
  pose proof (sync_missing_cluster_manager samplePackage (fakeController noReactor)
                "cluster-manager" emptyCluster None _ emptyCluster
                (resultOf sync_run emptyCluster) (stateOf sync_run emptyCluster)
                (logOf sync_run emptyCluster) eq_refl eq_refl)
    as (_ & _ & Hc & _ & Hr & _).
  split; [exact (Hr eq_refl)|exact Hc].
Defined.

Lemma sync_without_crd_witness :
  resultOf sync_run bare_hub = None
  /\ countb isMutation (logOf sync_run bare_hub) = 0.
Proof.
  pose proof (sync_without_crd samplePackage (fakeController noReactor)
                "cluster-manager" bare_hub _ bare_hub _ bare_hub
                (resultOf sync_run bare_hub) (stateOf sync_run bare_hub)
                (logOf sync_run bare_hub) eq_refl eq_refl eq_refl eq_refl)
    as (Hr & _ & Hc & _).
  split; [exact Hr|exact Hc].
Defined.

Lemma sync_waits_for_applied_witness :
  resultOf sync_run waiting_hub = None
  /\ logOf sync_run waiting_hub
     = [ActListerGet "cluster-manager"
          (RespOk (sampleClusterManager None [mkCondition "Applied" "False"]));
        ActCRDGet migrationRequestCRDName None;
        ActAddAfter "cluster-manager" 5000000000].
Proof.
  pose proof (sync_waits_for_applied samplePackage (fakeController noReactor)
                "cluster-manager" waiting_hub _ waiting_hub waiting_hub
                (resultOf sync_run waiting_hub) (stateOf sync_run waiting_hub)
                (logOf sync_run waiting_hub) eq_refl eq_refl eq_refl eq_refl eq_refl)
    as (Hr & Hl & _).
  split; [exact Hr|exact Hl].
Defined.

(** C7, as stated, fails in two ways.  With the CRD absent, the
    cluster-manager being deleted and both migration requests in the
    store, [sync] returns after the CRD check and issues no delete.  With
    the CRD present and a store that refuses deletes, [sync] stops after
    the first delete and never asks for the second request to go. *)
Lemma sync_deleting_without_crd_removes_nothing :
  (IsZero (DeletionTimestamp
             (sampleClusterManager (Some 1700000000000000000%Z)
                [mkCondition "Applied" "True"])) = false
   /\ migrations deleting_bare_hub !! setsName = Some setsMigration
   /\ migrations deleting_bare_hub !! bindingsName = Some bindingsMigration
   /\ resultOf sync_run deleting_bare_hub = None
   /\ deletesOf (logOf sync_run deleting_bare_hub) = []
   /\ ~ removesEvery [setsName; bindingsName] (logOf sync_run deleting_bare_hub))
  /\ (resultOf sync_forbidden_run deleting_hub
       = Some (StatusError StatusReasonForbidden "forbidden")
      /\ deletesOf (logOf sync_forbidden_run deleting_hub) = [setsName]
      /\ ~ removesEvery [setsName; bindingsName] (logOf sync_forbidden_run deleting_hub)).
Proof.
  split.
  - split; [reflexivity|].
    do 4 (split; [vm_compute; reflexivity|]).
    intros H. specialize (H setsName).
    assert (Hin : setsName ∈ [setsName; bindingsName])
      by (apply list_elem_of_In; cbn; auto).
    apply H in Hin. vm_compute in Hin.
    by apply elem_of_nil in Hin.
  - do 2 (split; [vm_compute; reflexivity|]).
    intros H. specialize (H bindingsName).
    assert (Hin : bindingsName ∈ [setsName; bindingsName])
      by (apply list_elem_of_In; cbn; auto).
    apply H in Hin. vm_compute in Hin.
    apply list_elem_of_singleton in Hin. discriminate Hin.
Qed.

Lemma sync_deleting_runs_removal_witness :
  countb isAddAfter (logOf sync_run deleting_hub) = 0
  /\ deletesOf (logOf sync_run deleting_hub) = [setsName; bindingsName]
  /\ migrations (stateOf sync_run deleting_hub) = ∅.
Proof.
  pose proof (sync_deleting_runs_removal samplePackage (fakeController noReactor)
                "cluster-manager" deleting_hub
                (sampleClusterManager (Some 1700000000000000000%Z) []) deleting_hub
                (resultOf sync_run deleting_hub) (stateOf sync_run deleting_hub)
                (logOf sync_run deleting_hub) eq_refl eq_refl eq_refl)
    as [Hq _].
  split; [exact Hq|]. split; vm_compute; reflexivity.
Defined.

(** ** Further properties of the controller *)

Lemma countb_none (p q : Action -> bool) (l : list Action) :
  (forall a, q a = true -> p a = false) ->
  Forall (fun a => q a = true) l ->
  countb p l = 0.
Proof.
  intros Hpq. induction 1 as [|a l Ha _ IH]; cbn; [done|].
  by rewrite (Hpq _ Ha), IH.
Qed.

Lemma attempts_forall {St R : Type} (f : string -> M St R) (q : Action -> bool)
    files s rs s' l :
  (forall file s0 r s1 l1,
     run (f file) s0 = (r, s1, l1) -> Forall (fun a => q a = true) l1) ->
  Attempts f files s rs s' l ->
  Forall (fun a => q a = true) l.
Proof.
  intros Hf. induction 1 as [|file rest s r s1 l1 rs s2 l2 Hrun _ IH]; [constructor|].
  apply Forall_app. split; [by eapply Hf|done].
Qed.

Section SyncPaths.
Context {St : Type}.
Variable pkg : Package.
Variable c : crdMigrationController St.

Lemma sync_path (key : string) (s : St) r s' l :
  run (sync pkg c key) s = (r, s', l) ->
  SyncPath pkg c key s r s' l.
Proof.
  unfold run, sync, supportStorageVersionMigration, bind, call, emit, ret.
  remember (removeStorageVersionMigrations pkg c) as rm eqn:Erm.
  remember (applyStorageVersionMigrations pkg c) as ap eqn:Eap.
  destruct (listerGet (clusterManagerLister c) key s) as [[cm|partial err] s1] eqn:Hget; cbn.
  - destruct (crdGet (apiExtensionClient c) migrationRequestCRDName s1)
      as [[e|] s2] eqn:Hcrd; cbn.
    + destruct (IsNotFound e) eqn:Hnf; cbn; intros [= <- <- <-]; by econstructor.
    + destruct (IsZero (DeletionTimestamp cm)) eqn:Hdel; cbn.
      * destruct (IsStatusConditionTrue (Conditions cm) clusterManagerApplied) eqn:Happ; cbn.
        -- destruct (ap s2) as [[r3 s3] l3] eqn:Hap. intros [= <- <- <-]. subst ap.
           by eapply SyncApplying.
        -- intros [= <- <- <-]. by eapply SyncWaiting.
      * destruct (rm s2) as [[r3 s3] l3] eqn:Hrm. intros [= <- <- <-]. subst rm.
        by eapply SyncRemoving.
  - destruct (IsNotFound err) eqn:Hnf; cbn; intros [= <- <- <-]; by econstructor.
Qed.

Lemma apply_steps manifests file (s : St) r s1 l1 :
  run (applyStorageVersionMigration pkg (migrationClient c) manifests file) s = (r, s1, l1) ->
  Forall (fun a => isApplyStep a = true) l1.
Proof. intros H%apply_path. destruct H; repeat constructor. Qed.

Lemma remove_only_steps manifests file (s : St) r s1 l1 :
  run (removeStorageVersionMigration pkg (migrationClient c) manifests file) s = (r, s1, l1) ->
  Forall (fun a => isRemoveStep a = true) l1.
Proof.
  unfold run, removeStorageVersionMigration, callAsset, bind, call, ret.
  destruct (manifests file) as [data|err]; cbn;
    [|intros [= <- <- <-]; repeat constructor].
  destruct (Decode pkg data) as [[required|kind name]|err]; cbn;
    [|intros [= <- <- <-]; repeat constructor..].
  destruct (svmDelete (migrationClient c) (Name (Meta required)) s) as [[e|] s2]; cbn;
    [destruct (IsNotFound e)|]; intros [= <- <- <-]; repeat constructor.
Qed.

Lemma applyLoop_steps (s : St) r s' l :
  run (applyStorageVersionMigrations pkg c) s = (r, s', l) ->
  Forall (fun a => isApplyStep a = true) l.
Proof.
  unfold applyStorageVersionMigrations, run, bind, ret.
  destruct (applyLoop pkg c migrationRequestFiles [] s) as [[errs s1] l1] eqn:Hloop.
  intros [= <- <- <-]. rewrite app_nil_r.
  apply applyLoop_attempts in Hloop as (outs & Hatt & _).
  eapply attempts_forall; [|exact Hatt].
  intros ?????; apply apply_steps.
Qed.

Lemma removeLoop_only_steps (s : St) r s' l :
  run (removeStorageVersionMigrations pkg c) s = (r, s', l) ->
  Forall (fun a => isRemoveStep a = true) l.
Proof.
  intros H. apply removeLoop_attempts in H as (done & outs & Hatt & _).
  eapply attempts_forall; [|exact Hatt].
  intros ?????; apply remove_only_steps.
Qed.

End SyncPaths.

Ltac count_zero q :=
  match goal with
  | H : Forall (fun a => q a = true) ?l |- countb ?p ?l = 0 =>
      apply (countb_none p q); [by intros []|exact H]
  end.

(** Two hypotheses on the same call are one. *)
Ltac same_lhs :=
  repeat match goal with
    | H1 : ?x = ?a, H2 : ?x = ?b |- _ =>
        first [is_var x; fail 1 | rewrite H1 in H2; simplify_eq]
    end.

Section SyncExtras.
Context {St : Type}.
Variable pkg : Package.
Variable c : crdMigrationController St.

(** X1.  When the ClusterManager exists and the CRD lookup fails with an
    error other than NotFound, [sync] returns that error after the two
    lookups, whatever the deletion timestamp and the conditions say: no
    create, update or delete is issued and the key is not added back. *)
Theorem sync_crd_lookup_error (key : string) (s : St) cm s1 e s2 r s' l :
  listerGet (clusterManagerLister c) key s = (RespOk cm, s1) ->
  crdGet (apiExtensionClient c) migrationRequestCRDName s1 = (Some e, s2) ->
  IsNotFound e = false ->
  run (sync pkg c key) s = (r, s', l) ->
  r = Some e
  /\ l = [ActListerGet key (RespOk cm); ActCRDGet migrationRequestCRDName (Some e)]
  /\ s' = s2
  /\ countb isMutation l = 0
  /\ countb isAddAfter l = 0.
Proof.
  intros Hget Hcrd Hnf H%sync_path.
  destruct H; same_lhs; done.
Qed.

(** X2.  When the ClusterManager exists, the CRD is there, no deletion
    is under way and the Applied condition is true, [sync] is the two
    lookups followed by the run of [applyStorageVersionMigrations], whose
    result it returns; it issues no delete and does not add the key
    back. *)
Theorem sync_applies_when_applied (key : string) (s : St) cm s1 s2 r s' l :
  listerGet (clusterManagerLister c) key s = (RespOk cm, s1) ->
  crdGet (apiExtensionClient c) migrationRequestCRDName s1 = (None, s2) ->
  IsZero (DeletionTimestamp cm) = true ->
  IsStatusConditionTrue (Conditions cm) clusterManagerApplied = true ->
  run (sync pkg c key) s = (r, s', l) ->
  exists l3,
    run (applyStorageVersionMigrations pkg c) s2 = (r, s', l3)
    /\ l = ([ActListerGet key (RespOk cm);
             ActCRDGet migrationRequestCRDName None] ++ l3)%list
    /\ countb isDelete l = 0
    /\ countb isAddAfter l = 0.
Proof.
  intros Hget Hcrd Hdel Happ H%sync_path.
  destruct H; same_lhs.
  match goal with
  | H : run (applyStorageVersionMigrations _ _) _ = _ |- _ =>
      pose proof (applyLoop_steps _ _ _ _ _ _ H) as Hsteps
  end.
  exists l3. split; [done|]. split; [done|].
  cbn. split; count_zero isApplyStep.
Qed.

(** X3.  [sync] keeps the two phases apart.  While the cluster-manager
    is not being deleted it never issues a delete; once it is being
    deleted it never reads, creates or updates a migration request,
    records no event and does not add the key back. *)
Theorem sync_phases_do_not_mix (key : string) (s : St) cm s1 r s' l :
  listerGet (clusterManagerLister c) key s = (RespOk cm, s1) ->
  run (sync pkg c key) s = (r, s', l) ->
  (IsZero (DeletionTimestamp cm) = true -> countb isDelete l = 0)
  /\ (IsZero (DeletionTimestamp cm) = false ->
      countb isCreate l = 0 /\ countb isUpdate l = 0
      /\ countb isGet l = 0
      /\ countb isRecorded l = 0 /\ countb isAddAfter l = 0).
Proof.
  intros Hget H%sync_path.
  destruct H; same_lhs; (split; intros Hz; same_lhs); try done; cbn.
  - match goal with
    | H : run (removeStorageVersionMigrations _ _) _ = _ |- _ =>
        pose proof (removeLoop_only_steps _ _ _ _ _ _ H) as Hsteps
    end.
    repeat split; count_zero isRemoveStep.
  - match goal with
    | H : run (applyStorageVersionMigrations _ _) _ = _ |- _ =>
        pose proof (applyLoop_steps _ _ _ _ _ _ H) as Hsteps
    end.
    count_zero isApplyStep.
Qed.

(** X4.  Every run of [sync] starts with the lister lookup of its key.
    It issues a create, update or delete, records an event or adds the
    key back only after both the lister lookup and the CRD lookup have
    succeeded; it adds the key back at most once, and when it does it
    returns nil and has changed nothing. *)
Theorem sync_effects_need_both_lookups (key : string) (s : St) r s' l :
  run (sync pkg c key) s = (r, s', l) ->
  (exists resp rest, l = ActListerGet key resp :: rest)
  /\ (countb isMutation l + countb isRecorded l + countb isAddAfter l <> 0 ->
      exists cm s1 s2,
        listerGet (clusterManagerLister c) key s = (RespOk cm, s1)
        /\ crdGet (apiExtensionClient c) migrationRequestCRDName s1 = (None, s2))
  /\ countb isAddAfter l <= 1
  /\ (countb isAddAfter l = 1 ->
      r = None /\ countb isMutation l = 0 /\ countb isRecorded l = 0).
Proof.
  intros H%sync_path.
  destruct H; cbn.
  1-4: (split; [by eauto|]); (split; [done|]); split; [lia|done].
  - pose proof (removeLoop_only_steps _ _ _ _ _ _ H2) as Hsteps.
    assert (countb isAddAfter l3 = 0) as -> by count_zero isRemoveStep.
    split; [by eauto|]. split; [by eauto 10|]. split; [lia|done].
  - split; [by eauto|]. split; [by eauto 10|]. split; [lia|done].
  - pose proof (applyLoop_steps _ _ _ _ _ _ H3) as Hsteps.
    assert (countb isAddAfter l3 = 0) as -> by count_zero isApplyStep.
    split; [by eauto|]. split; [by eauto 10|]. split; [lia|done].
Qed.

End SyncExtras.

Section ApplyExtras.
Context {St : Type}.
Variable pkg : Package.
Variable client : StorageVersionMigrationsGetter St.
Variable manifests : AssetFunc.

(** X5.  A manifest that is missing, does not decode or decodes to
    another kind never reaches the store: [applyStorageVersionMigration]
    returns no object, [changed = false] and an error that names the
    file, makes no store call, records no event and leaves the state as
    it was. *)
Theorem apply_bad_manifest_stays_local (file : string) (s : St) r s' l :
  artifactName pkg manifests file = None ->
  run (applyStorageVersionMigration pkg client manifests file) s = (r, s', l) ->
  r.1.1 = None
  /\ changedOf r = false
  /\ ((exists format cause, errOf r = Some (ErrorfErr format file cause))
      \/ (exists format object, errOf r = Some (ErrorfObj format file object)))
  /\ s' = s
  /\ countb isStoreCall l = 0
  /\ countb isRecorded l = 0.
Proof.
  unfold artifactName. intros Hname H%apply_path.
  destruct H as [err Hm|data err Hm Hd|data kind name Hm Hd
                |data required ? ? ? Hm Hd|data required ? ? ? ? ? ? Hm Hd
                |data required ? ? ? ? ? Hm Hd|data required ? ? Hm Hd
                |data required ? ? ? ? ? Hm Hd|data required ? ? ? ? Hm Hd];
    rewrite Hm in Hname; try (rewrite Hd in Hname; try discriminate Hname);
    cbn; repeat split; eauto.
Qed.

(** X6.  Whenever the manifest stands for a migration request,
    [applyStorageVersionMigration] first reads the store by the
    manifest's name.  One run makes at most one get, at most one create
    or update and no delete, never adds a key to the queue, and records
    exactly one event for each create or update it issued. *)
Theorem apply_call_shape (file : string) (s : St) r s' l :
  run (applyStorageVersionMigration pkg client manifests file) s = (r, s', l) ->
  (forall name,
     artifactName pkg manifests file = Some name ->
     exists resp rest,
       l = ActAsset file (manifests file) :: ActGet name resp :: rest
       /\ countb isGet rest = 0)
  /\ countb isGet l <= 1
  /\ countb isCreate l + countb isUpdate l <= 1
  /\ countb isDelete l = 0
  /\ countb isAddAfter l = 0
  /\ countb isRecorded l = countb isCreate l + countb isUpdate l.
Proof.
  unfold artifactName. intros H%apply_path.
  destruct H as [err Hm|data err Hm Hd|data kind name Hm Hd
                |data required ? ? ? Hm Hd|data required ? ? ? ? ? ? Hm Hd
                |data required ? ? ? ? ? Hm Hd|data required ? ? Hm Hd
                |data required ? ? ? ? ? Hm Hd|data required ? ? ? ? Hm Hd];
    rewrite Hm; try rewrite Hd; cbn;
    (split; [intros name0 Hn; simplify_eq; by eauto|]);
    repeat split; lia.
Qed.

(** X7.  A create is issued only after the get answered NotFound, and
    it sends the object decoded from the manifest as it is; an update is
    issued only after the get returned an object, and it sends that
    object's status unchanged under the metadata [EnsureObjectMeta]
    left. *)
Theorem apply_payloads (file : string) (s : St) r s' l :
  run (applyStorageVersionMigration pkg client manifests file) s = (r, s', l) ->
  (forall o resp,
     ActCreate o resp ∈ l ->
     (exists data,
        manifests file = inl data
        /\ Decode pkg data = inl (ObjStorageVersionMigration o))
     /\ (exists partial err,
           ActGet (Name (Meta o)) (RespErr partial err) ∈ l /\ IsNotFound err = true))
  /\ (forall o resp,
        ActUpdate o resp ∈ l ->
        exists data required existing,
          manifests file = inl data
          /\ Decode pkg data = inl (ObjStorageVersionMigration required)
          /\ ActGet (Name (Meta required)) (RespOk existing) ∈ l
          /\ StatusConditions o = StatusConditions existing
          /\ Meta o = (EnsureObjectMeta pkg false (Meta existing) (Meta required)).2).
Proof.
  intros H%apply_path.
  destruct H; split; intros o resp Hin; log_cases; subst.
  - split; [by eauto|]. do 2 eexists. split; [log_find|done].
  - split; [by eauto|]. do 2 eexists. split; [log_find|done].
  - do 3 eexists. split; [eassumption|]. split; [eassumption|].
    split; [log_find|]. split; reflexivity.
  - do 3 eexists. split; [eassumption|]. split; [eassumption|].
    split; [log_find|]. split; reflexivity.
Qed.

(** X8.  A run that returns no error returns an object, and that object
    is the store's own answer: the object the get returned when nothing
    was changed, the object the create or update call returned
    otherwise.  A run that reports [changed = false] has left the state
    as the get left it and has recorded no event. *)
Theorem apply_returns_store_answer (file : string) (s : St) r s' l :
  run (applyStorageVersionMigration pkg client manifests file) s = (r, s', l) ->
  (errOf r = None ->
   exists o,
     r.1.1 = Some o
     /\ ((changedOf r = false /\ exists name, ActGet name (RespOk o) ∈ l)
         \/ (changedOf r = true
             /\ ((exists sent, ActCreate sent (RespOk o) ∈ l)
                 \/ (exists sent, ActUpdate sent (RespOk o) ∈ l)))))
  /\ (changedOf r = false ->
      countb isMutation l = 0 /\ countb isRecorded l = 0
      /\ forall name,
           artifactName pkg manifests file = Some name ->
           s' = (svmGet client name s).2).
Proof.
  unfold artifactName. intros H%apply_path.
  destruct H as [err Hm|data err Hm Hd|data kind name Hm Hd
                |data required ? ? ? Hm Hd Hg|data required ? ? ? ? ? ? Hm Hd Hg
                |data required ? ? ? ? ? Hm Hd Hg|data required ? ? Hm Hd Hg
                |data required ? ? ? ? ? Hm Hd Hg|data required ? ? ? ? Hm Hd Hg];
    rewrite Hm; try rewrite Hd; cbn; (split; [intros [=]|intros [=]]);
    try (repeat split; try done; intros ? [= <-]; by rewrite Hg).
  - eexists. split; [done|]. right. split; [done|]. left. log_find.
  - eexists. split; [done|]. left. split; [done|]. log_find.
  - eexists. split; [done|]. right. split; [done|]. right. log_find.
Qed.

End ApplyExtras.

(** X9.  [removeStorageVersionMigration] returns a render or decode
    error as it is and then leaves the store alone.  When the manifest
    stands for a migration request, its one store call is the delete by
    the manifest's name; it never reads, creates or updates, records no
    event and adds no key to the queue. *)
Theorem remove_call_shape {St : Type} (pkg : Package)
    (client : StorageVersionMigrationsGetter St) (manifests : AssetFunc)
    (file : string) (s : St) r s' l :
  run (removeStorageVersionMigration pkg client manifests file) s = (r, s', l) ->
  (artifactName pkg manifests file = None ->
   (exists e, r = Some e) /\ s' = s /\ countb isStoreCall l = 0)
  /\ (forall e, manifests file = inr e -> r = Some e)
  /\ (forall data e,
        manifests file = inl data -> Decode pkg data = inr e -> r = Some e)
  /\ (forall name,
        artifactName pkg manifests file = Some name ->
        exists derr,
          l = [ActAsset file (manifests file); ActDelete name derr]
          /\ svmDelete client name s = (derr, s'))
  /\ countb isGet l = 0 /\ countb isCreate l = 0 /\ countb isUpdate l = 0
  /\ countb isRecorded l = 0 /\ countb isAddAfter l = 0
  /\ countb isDelete l <= 1.
Proof.
  unfold run, removeStorageVersionMigration, artifactName, callAsset, bind, call, ret.
  destruct (manifests file) as [data|err] eqn:Hm; cbn;
    [|intros [= <- <- <-]; cbn; repeat split; eauto; try done; try lia;
      intros; simplify_eq; done].
  destruct (Decode pkg data) as [[required|kind name]|err] eqn:Hd; cbn.
  - destruct (svmDelete client (Name (Meta required)) s) as [derr s2] eqn:Hdel; cbn.
    assert (Hlog : forall r0,
               (r0, s2, [ActAsset file (inl data);
                         ActDelete (Name (Meta required)) derr]) = (r, s', l) ->
               forall name, Some (Name (Meta required)) = Some name ->
               exists derr0,
                 l = [ActAsset file (inl data); ActDelete name derr0]
                 /\ svmDelete client name s = (derr0, s')).
    { intros r0 [= <- <- <-] name [= <-]. by exists derr. }
    destruct derr as [e|]; [destruct (IsNotFound e)|]; cbn; intros Heq;
      pose proof (Hlog _ Heq) as Hl; injection Heq as <- <- <-; cbn;
      repeat split; try done; try lia; intros; simplify_eq; same_lhs; eauto.
  - intros [= <- <- <-]. cbn. repeat split; eauto; try done; try lia.
    all: intros; simplify_eq; same_lhs; done.
  - intros [= <- <- <-]. cbn. repeat split; eauto; try done; try lia.
    all: intros; simplify_eq; same_lhs; done.
Qed.

(** ** The controller on the in-memory store *)

Section MemoryStore.
Variable pkg : Package.
Variable manifests : AssetFunc.

Lemma memory_apply_absent file data required (s : Cluster) :
  manifests file = inl data ->
  Decode pkg data = inl (ObjStorageVersionMigration required) ->
  migrations s !! Name (Meta required) = None ->
  applyStorageVersionMigration pkg (fakeMigrationClient noReactor) manifests file s
  = ((Some required, true, None),
     setMigrations s (<[Name (Meta required) := required]> (migrations s)),
     [ActAsset file (inl data);
      ActGet (Name (Meta required))
        (RespErr None (NewNotFound migrationRequestCRDName (Name (Meta required))));
      ActCreate required (RespOk required);
      ActEventf "StorageVersionMigrationCreated" required]).
Proof.
  intros Hm Hd Habs.
  unfold applyStorageVersionMigration, callAsset, bind, call, emit, ret.
  rewrite Hm; cbn. rewrite Hd; cbn. rewrite Habs; cbn. by rewrite Habs.
Qed.

Lemma memory_apply_settled file data required existing (s : Cluster) :
  manifests file = inl data ->
  Decode pkg data = inl (ObjStorageVersionMigration required) ->
  migrations s !! Name (Meta required) = Some existing ->
  needsUpdate pkg existing required = false ->
  applyStorageVersionMigration pkg (fakeMigrationClient noReactor) manifests file s
  = ((Some existing, false, None), s,
     [ActAsset file (inl data); ActGet (Name (Meta required)) (RespOk existing)]).
Proof.
  intros Hm Hd Hin Hn.
  unfold applyStorageVersionMigration, callAsset, bind, call, emit, ret.
  rewrite Hm; cbn. rewrite Hd; cbn. rewrite Hin; cbn.
  unfold needsUpdate in Hn.
  destruct (EnsureObjectMeta pkg false (Meta existing) (Meta required)) as [m meta].
  cbn in Hn. apply orb_false_iff in Hn as [-> Hn].
  apply negb_false_iff in Hn. rewrite Hn. reflexivity.
Qed.

Lemma memory_remove file data required (s : Cluster) :
  manifests file = inl data ->
  Decode pkg data = inl (ObjStorageVersionMigration required) ->
  exists s' derr,
    removeStorageVersionMigration pkg (fakeMigrationClient noReactor) manifests file s
    = (None, s', [ActAsset file (inl data); ActDelete (Name (Meta required)) derr])
    /\ migrations s' = delete (Name (Meta required)) (migrations s)
    /\ clusterManagers s' = clusterManagers s
    /\ crds s' = crds s
    /\ (migrations s !! Name (Meta required) = None -> s' = s).
Proof.
  intros Hm Hd.
  unfold removeStorageVersionMigration, callAsset, bind, call, ret.
  rewrite Hm; cbn. rewrite Hd; cbn.
  destruct (migrations s !! Name (Meta required)) as [o|] eqn:Hl; cbn.
  - do 2 eexists. split; [reflexivity|]. by repeat split.
  - do 2 eexists. split; [reflexivity|]. repeat split; try done.
    by rewrite delete_id.
Qed.

End MemoryStore.

Section MemoryLoops.
Variable pkg : Package.
Variables (d1 d2 : list byte) (r1 r2 : StorageVersionMigration).
Hypothesis Hm1 : clusterManagerAsset pkg setsFile = inl d1.
Hypothesis Hd1 : Decode pkg d1 = inl (ObjStorageVersionMigration r1).
Hypothesis Hm2 : clusterManagerAsset pkg bindingsFile = inl d2.
Hypothesis Hd2 : Decode pkg d2 = inl (ObjStorageVersionMigration r2).

Lemma memory_applyLoop_fresh (s : Cluster) :
  Name (Meta r1) <> Name (Meta r2) ->
  migrations s !! Name (Meta r1) = None ->
  migrations s !! Name (Meta r2) = None ->
  applyStorageVersionMigrations pkg (fakeController noReactor) s
  = (None,
     setMigrations s (<[Name (Meta r2) := r2]> (<[Name (Meta r1) := r1]> (migrations s))),
     [ActAsset setsFile (inl d1);
      ActGet (Name (Meta r1))
        (RespErr None (NewNotFound migrationRequestCRDName (Name (Meta r1))));
      ActCreate r1 (RespOk r1);
      ActEventf "StorageVersionMigrationCreated" r1;
      ActAsset bindingsFile (inl d2);
      ActGet (Name (Meta r2))
        (RespErr None (NewNotFound migrationRequestCRDName (Name (Meta r2))));
      ActCreate r2 (RespOk r2);
      ActEventf "StorageVersionMigrationCreated" r2]).
Proof.
  intros Hne Habs1 Habs2.
  unfold applyStorageVersionMigrations, bind, ret.
  change migrationRequestFiles with [setsFile; bindingsFile].
  cbn [applyLoop migrationClient fakeController]. unfold bind.
  rewrite (memory_apply_absent pkg _ _ _ _ s Hm1 Hd1 Habs1). cbn [fst snd].
  rewrite (memory_apply_absent pkg _ _ _ _ _ Hm2 Hd2)
    by (cbn; by rewrite lookup_insert_ne).
  reflexivity.
Qed.

Lemma memory_applyLoop_settled (s : Cluster) e1 e2 :
  migrations s !! Name (Meta r1) = Some e1 ->
  migrations s !! Name (Meta r2) = Some e2 ->
  needsUpdate pkg e1 r1 = false ->
  needsUpdate pkg e2 r2 = false ->
  applyStorageVersionMigrations pkg (fakeController noReactor) s
  = (None, s,
     [ActAsset setsFile (inl d1); ActGet (Name (Meta r1)) (RespOk e1);
      ActAsset bindingsFile (inl d2); ActGet (Name (Meta r2)) (RespOk e2)]).
Proof.
  intros Hin1 Hin2 Hn1 Hn2.
  unfold applyStorageVersionMigrations, bind, ret.
  change migrationRequestFiles with [setsFile; bindingsFile].
  cbn [applyLoop migrationClient fakeController]. unfold bind.
  rewrite (memory_apply_settled pkg _ _ _ _ _ s Hm1 Hd1 Hin1 Hn1). cbn [fst snd].
  rewrite (memory_apply_settled pkg _ _ _ _ _ s Hm2 Hd2 Hin2 Hn2).
  reflexivity.
Qed.

Lemma memory_removeLoop (s : Cluster) :
  exists s' derr1 derr2,
    removeStorageVersionMigrations pkg (fakeController noReactor) s
    = (None, s',
       [ActAsset setsFile (inl d1); ActDelete (Name (Meta r1)) derr1;
        ActAsset bindingsFile (inl d2); ActDelete (Name (Meta r2)) derr2])
    /\ migrations s' = delete (Name (Meta r2)) (delete (Name (Meta r1)) (migrations s))
    /\ clusterManagers s' = clusterManagers s
    /\ crds s' = crds s
    /\ (migrations s !! Name (Meta r1) = None ->
        migrations s !! Name (Meta r2) = None -> s' = s).
Proof.
  destruct (memory_remove pkg _ _ _ _ s Hm1 Hd1)
    as (s1 & derr1 & Hrun1 & Hmig1 & Hcm1 & Hcrd1 & Hid1).
  destruct (memory_remove pkg _ _ _ _ s1 Hm2 Hd2)
    as (s2 & derr2 & Hrun2 & Hmig2 & Hcm2 & Hcrd2 & Hid2).
  exists s2, derr1, derr2.
  unfold removeStorageVersionMigrations.
  change migrationRequestFiles with [setsFile; bindingsFile].
  cbn [removeLoop migrationClient fakeController]. unfold bind.
  rewrite Hrun1. cbn [fst snd]. rewrite Hrun2. cbn.
  split; [done|]. split; [by rewrite Hmig2, Hmig1|].
  split; [congruence|]. split; [congruence|].
  intros Ha1 Ha2. rewrite Hid2, Hid1; try done.
  by rewrite (Hid1 Ha1).
Qed.

Lemma memory_sync_applying key cm (s : Cluster) :
  clusterManagers s !! key = Some cm ->
  migrationRequestCRDName ∈ crds s ->
  IsZero (DeletionTimestamp cm) = true ->
  IsStatusConditionTrue (Conditions cm) clusterManagerApplied = true ->
  sync pkg (fakeController noReactor) key s
  = (let '(r, s3, l3) := applyStorageVersionMigrations pkg (fakeController noReactor) s in
     (r, s3, ActListerGet key (RespOk cm) :: ActCRDGet migrationRequestCRDName None :: l3)).
Proof.
  intros Hcm Hcrd Hdel Happ.
  unfold sync, supportStorageVersionMigration, bind, call.
  remember (applyStorageVersionMigrations pkg (fakeController noReactor)) as ap.
  cbn. rewrite Hcm; cbn. rewrite decide_True by done. cbn.
  rewrite Hdel, Happ; cbn.
  by destruct (ap s) as [[r s3] l3].
Qed.

End MemoryLoops.

(** X10.  On the in-memory store, with the CRD present and the
    cluster-manager Applied and not being deleted, a first [sync] from a
    store without migration requests creates the two requests decoded
    from the manifests, in file order, and returns nil; a second [sync]
    right after it returns nil, issues no create, update or delete,
    records no event and leaves the store as it is.  The two manifests
    must name different objects, and the metadata merge of an object with
    itself must report no modification. *)
Theorem sync_twice_on_memory_store (pkg : Package) (key : string) cm
    d1 r1 d2 r2 (s : Cluster) res1 s1 l1 res2 s2 l2 :
  clusterManagers s !! key = Some cm ->
  migrationRequestCRDName ∈ crds s ->
  IsZero (DeletionTimestamp cm) = true ->
  IsStatusConditionTrue (Conditions cm) clusterManagerApplied = true ->
  clusterManagerAsset pkg setsFile = inl d1 ->
  Decode pkg d1 = inl (ObjStorageVersionMigration r1) ->
  clusterManagerAsset pkg bindingsFile = inl d2 ->
  Decode pkg d2 = inl (ObjStorageVersionMigration r2) ->
  Name (Meta r1) <> Name (Meta r2) ->
  (EnsureObjectMeta pkg false (Meta r1) (Meta r1)).1 = false ->
  (EnsureObjectMeta pkg false (Meta r2) (Meta r2)).1 = false ->
  migrations s = ∅ ->
  run (sync pkg (fakeController noReactor) key) s = (res1, s1, l1) ->
  run (sync pkg (fakeController noReactor) key) s1 = (res2, s2, l2) ->
  res1 = None
  /\ omap verb l1 = ["get"; "create"; "get"; "create"]
  /\ createPayloads l1 = [r1; r2]
  /\ migrations s1 = <[Name (Meta r2) := r2]> (<[Name (Meta r1) := r1]> ∅)
  /\ res2 = None
  /\ countb isMutation l2 = 0
  /\ countb isRecorded l2 = 0
  /\ s2 = s1.
Proof.
  intros Hcm Hcrd Hdel Happ Hm1 Hd1 Hm2 Hd2 Hne He1 He2 Hs.
  unfold run.
  rewrite (memory_sync_applying pkg key cm s Hcm Hcrd Hdel Happ).
  rewrite (memory_applyLoop_fresh pkg d1 d2 r1 r2 Hm1 Hd1 Hm2 Hd2 s Hne)
    by (by rewrite Hs, lookup_empty).
  intros [= <- <- <-].
  rewrite (memory_sync_applying pkg key cm (setMigrations s _) Hcm Hcrd Hdel Happ).
  rewrite (memory_applyLoop_settled pkg d1 d2 r1 r2 Hm1 Hd1 Hm2 Hd2 _ r1 r2).
  - intros [= <- <- <-]. cbn. by rewrite Hs.
  - cbn. rewrite lookup_insert_ne by done. apply lookup_insert_eq.
  - cbn. apply lookup_insert_eq.
  - unfold needsUpdate, SemanticDeepEqualSpec. rewrite He1.
    by rewrite bool_decide_true.
  - unfold needsUpdate, SemanticDeepEqualSpec. rewrite He2.
    by rewrite bool_decide_true.
Qed.

(** X11.  On the in-memory store, when both manifests stand for
    migration requests, [removeStorageVersionMigrations] always returns
    nil: it issues one delete for each of the two names, in file order,
    takes exactly these two names out of the store whether or not they
    were there, and touches nothing else; a second run right after it
    returns nil and leaves the store as it is. *)
Theorem removal_on_memory_store (pkg : Package) d1 r1 d2 r2 (s : Cluster)
    res s' l :
  clusterManagerAsset pkg setsFile = inl d1 ->
  Decode pkg d1 = inl (ObjStorageVersionMigration r1) ->
  clusterManagerAsset pkg bindingsFile = inl d2 ->
  Decode pkg d2 = inl (ObjStorageVersionMigration r2) ->
  run (removeStorageVersionMigrations pkg (fakeController noReactor)) s = (res, s', l) ->
  res = None
  /\ deletesOf l = [Name (Meta r1); Name (Meta r2)]
  /\ migrations s' = delete (Name (Meta r2)) (delete (Name (Meta r1)) (migrations s))
  /\ clusterManagers s' = clusterManagers s
  /\ crds s' = crds s
  /\ (forall res2 s2 l2,
        run (removeStorageVersionMigrations pkg (fakeController noReactor)) s'
          = (res2, s2, l2) ->
        res2 = None /\ s2 = s').
Proof.
  intros Hm1 Hd1 Hm2 Hd2. unfold run.
  destruct (memory_removeLoop pkg d1 d2 r1 r2 Hm1 Hd1 Hm2 Hd2 s)
    as (sa & e1 & e2 & -> & Hmig & Hcms & Hcrds & _).
  intros [= <- <- <-].
  split; [done|]. split; [done|]. split; [done|]. split; [done|]. split; [done|].
  intros res2 s2 l2.
  destruct (memory_removeLoop pkg d1 d2 r1 r2 Hm1 Hd1 Hm2 Hd2 sa)
    as (sb & e3 & e4 & -> & _ & _ & _ & Hid).
  intros [= <- <- <-]. split; [done|].
  apply Hid; rewrite Hmig.
  - destruct (decide (Name (Meta r1) = Name (Meta r2))) as [Heq|Hne].
    + rewrite Heq. apply lookup_delete_eq.
    + rewrite lookup_delete_ne by done. apply lookup_delete_eq.
  - apply lookup_delete_eq.
Qed.

(** X12.  On the in-memory store, applying the two migration requests
    to a store that holds neither name and then removing them gives the
    store back as it was: both runs return nil and the final store is
    the initial one. *)
Theorem apply_then_remove_restores_store (pkg : Package) d1 r1 d2 r2 (s : Cluster)
    ra s1 l1 rr s2 l2 :
  clusterManagerAsset pkg setsFile = inl d1 ->
  Decode pkg d1 = inl (ObjStorageVersionMigration r1) ->
  clusterManagerAsset pkg bindingsFile = inl d2 ->
  Decode pkg d2 = inl (ObjStorageVersionMigration r2) ->
  Name (Meta r1) <> Name (Meta r2) ->
  migrations s !! Name (Meta r1) = None ->
  migrations s !! Name (Meta r2) = None ->
  run (applyStorageVersionMigrations pkg (fakeController noReactor)) s = (ra, s1, l1) ->
  run (removeStorageVersionMigrations pkg (fakeController noReactor)) s1 = (rr, s2, l2) ->
  ra = None /\ rr = None
  /\ countb isCreate l1 = 2 /\ countb isDelete l2 = 2
  /\ migrations s2 = migrations s
  /\ clusterManagers s2 = clusterManagers s
  /\ crds s2 = crds s.
Proof.
  intros Hm1 Hd1 Hm2 Hd2 Hne Ha1 Ha2. unfold run.
  rewrite (memory_applyLoop_fresh pkg d1 d2 r1 r2 Hm1 Hd1 Hm2 Hd2 s Hne Ha1 Ha2).
  intros [= <- <- <-].
  destruct (memory_removeLoop pkg d1 d2 r1 r2 Hm1 Hd1 Hm2 Hd2
              (setMigrations s (<[Name (Meta r2):=r2]> (<[Name (Meta r1):=r1]> (migrations s)))))
    as (sb & e1 & e2 & -> & Hmig & Hcms & Hcrds & _).
  intros [= <- <- <-].
  split; [done|]. split; [done|]. split; [done|]. split; [done|].
  split; [|by split].
  rewrite Hmig. cbn.
  rewrite delete_insert_ne by done.
  rewrite (delete_insert_id _ _ _ Ha1).
  by apply delete_insert_id.
Qed.

Lemma apply_missing {St : Type} (pkg : Package)
    (client : StorageVersionMigrationsGetter St) (manifests : AssetFunc)
    (file : string) e (s : St) :
  manifests file = inr e ->
  applyStorageVersionMigration pkg client manifests file s
  = ((None, false, Some (ErrorfErr "missing %q: %v" file e)), s,
     [ActAsset file (inr e)]).
Proof.
  intros Hm. unfold applyStorageVersionMigration, callAsset, bind, call, ret.
  by rewrite Hm.
Qed.

(** X13.  A manifest that cannot be read does not hold back its
    sibling: on the in-memory store, when the sets manifest is missing
    and the bindings manifest stands for a request the store does not
    hold, [applyStorageVersionMigrations] still creates the bindings
    request and returns an aggregate whose only member is the error for
    the missing file. *)
Theorem apply_isolates_missing_manifest (pkg : Package) e d2 r2 (s : Cluster)
    res s' l :
  clusterManagerAsset pkg setsFile = inr e ->
  clusterManagerAsset pkg bindingsFile = inl d2 ->
  Decode pkg d2 = inl (ObjStorageVersionMigration r2) ->
  migrations s !! Name (Meta r2) = None ->
  run (applyStorageVersionMigrations pkg (fakeController noReactor)) s = (res, s', l) ->
  res = Some (Aggregate [ErrorfErr "missing %q: %v" setsFile e])
  /\ createPayloads l = [r2]
  /\ migrations s' = <[Name (Meta r2) := r2]> (migrations s)
  /\ assetsOf l = [setsFile; bindingsFile].
Proof.
  intros Hm1 Hm2 Hd2 Habs.
  unfold run, applyStorageVersionMigrations, bind, ret.
  change migrationRequestFiles with [setsFile; bindingsFile].
  cbn [applyLoop migrationClient fakeController]. unfold bind.
  rewrite (apply_missing pkg _ _ _ e s Hm1). cbn [fst snd].
  rewrite (memory_apply_absent pkg _ _ _ _ s Hm2 Hd2 Habs).
  by intros [= <- <- <-].
Qed.

(** ** The test helpers *)

Lemma assertActionsFrom_returns (actual : list Action) (expected : list string) :
  forall i errors,
    i + length expected <= length actual ->
    exists more,
      assertActionsFrom actual i expected errors = Returns (errors ++ more)%list
      /\ (more = [] <->
          verb <$> take (length expected) (drop i actual) = Some <$> expected).
Proof.
  induction expected as [|e rest IH]; intros i errors Hlen; cbn in *.
  - exists []. rewrite app_nil_r. split; [done|]. by rewrite take_0.
  - destruct (actual !! i) as [a|] eqn:Ha;
      [|apply lookup_ge_None in Ha; lia].
    rewrite (drop_S _ _ _ Ha). cbn.
    destruct (IH (S i)
                (if decide (verb a = Some e) then errors
                 else (errors ++ [WrongVerb e a])%list)) as (more & -> & Hiff); [lia|].
    destruct (decide (verb a = Some e)) as [Hv|Hv].
    + exists more. split; [done|]. rewrite Hiff, Hv.
      split; [by intros ->|by intros [= ?]].
    + exists (WrongVerb e a :: more). split; [by rewrite <- app_assoc|].
      split; [done|]. intros [= ? _]. done.
Qed.

(** X14.  [assertActions] lets the test go on without a failure exactly
    when the recorded actions have the expected verbs, one for one and in
    order.  It ends the test with a fatal failure exactly when the two
    lists differ in length, and thanks to that check its indexing never
    panics. *)
Theorem assertActions_passes_iff (actual : list Action) (expected : list string) :
  (assertActions actual expected = Returns [] <-> verb <$> actual = Some <$> expected)
  /\ ((exists errors, assertActions actual expected = Fatal errors)
      <-> length actual <> length expected)
  /\ (forall errors, assertActions actual expected <> Panics errors)
  /\ (assertNoActions actual = Returns [] <-> actual = []).
Proof.
  assert (Hmain : forall exp,
             (assertActions actual exp = Returns [] <-> verb <$> actual = Some <$> exp)
             /\ ((exists errors, assertActions actual exp = Fatal errors)
                 <-> length actual <> length exp)
             /\ (forall errors, assertActions actual exp <> Panics errors)).
  { intros exp. unfold assertActions.
    destruct (decide (length actual = length exp)) as [Hlen|Hlen].
    - destruct (assertActionsFrom_returns actual exp 0 [])
        as (more & -> & Hiff); [lia|].
      rewrite drop_0, <- Hlen, firstn_all in Hiff. cbn.
      split; [|split].
      + rewrite <- Hiff. split; [by intros [= ->]|by intros ->].
      + split; [by intros [? [=]]|done].
      + by intros ? [=].
    - split; [|split].
      + split; [by intros [=]|].
        intros Heq. apply (f_equal length) in Heq.
        rewrite !length_fmap in Heq. done.
      + split; [done|by eauto].
      + by intros ? [=]. }
  destruct (Hmain expected) as (H1 & H2 & H3).
  split; [done|]. split; [done|]. split; [done|].
  unfold assertNoActions. rewrite (proj1 (Hmain [])). cbn.
  split; [apply fmap_nil_inv|by intros ->].
Qed.

(** X15.  [assertStorageVersionMigration] returns without a failure
    exactly when the object is a migration request of the expected name.
    On a migration request of another name it records one failure and
    returns; on an object of another kind it records one failure and then
    panics, so it never returns. *)
Theorem assertStorageVersionMigration_passes_iff (name : string) (object : Object) :
  (assertStorageVersionMigration name object = Returns []
   <-> exists o, object = ObjStorageVersionMigration o /\ Name (Meta o) = name)
  /\ (forall o,
        object = ObjStorageVersionMigration o -> Name (Meta o) <> name ->
        assertStorageVersionMigration name object
        = Returns [WrongName name (Name (Meta o))])
  /\ (forall kind other,
        object = ObjOther kind other ->
        assertStorageVersionMigration name object = Panics [NotAMigration object]).
Proof.
  unfold assertStorageVersionMigration.
  split; [|split].
  - destruct object as [o|kind other].
    + destruct (decide (Name (Meta o) = name)) as [Heq|Hne].
      * split; [by eauto|done].
      * split; [by intros [=]|]. intros (o' & [= <-] & Heq). done.
    + split; [by intros [=]|]. by intros (o' & [=] & _).
  - intros o -> Hne. by rewrite decide_False.
  - by intros kind other ->.
Qed.

Lemma memory_apply_update (pkg : Package) (manifests : AssetFunc)
    file data required existing stored (s : Cluster) :
  manifests file = inl data ->
  Decode pkg data = inl (ObjStorageVersionMigration required) ->
  migrations s !! Name (Meta required) = Some existing ->
  needsUpdate pkg existing required = true ->
  migrations s !! Name (Meta (workingCopy pkg existing required)) = Some stored ->
  applyStorageVersionMigration pkg (fakeMigrationClient noReactor) manifests file s
  = ((Some (workingCopy pkg existing required), true, None),
     setMigrations s
       (<[Name (Meta (workingCopy pkg existing required))
          := workingCopy pkg existing required]> (migrations s)),
     [ActAsset file (inl data);
      ActGet (Name (Meta required)) (RespOk existing);
      ActUpdate (workingCopy pkg existing required)
        (RespOk (workingCopy pkg existing required));
      ActEventf "StorageVersionMigrationUpdated" (workingCopy pkg existing required)]).
Proof.
  intros Hm Hd Hin Hn Hst.
  unfold applyStorageVersionMigration, callAsset, bind, call, emit, ret.
  rewrite Hm; cbn. rewrite Hd; cbn. rewrite Hin; cbn.
  unfold needsUpdate in Hn. unfold workingCopy in *.
  destruct (EnsureObjectMeta pkg false (Meta existing) (Meta required)) as [m meta].
  cbn in *.
  destruct (SemanticDeepEqualSpec (Spec existing) (Spec required)); cbn in *.
  - rewrite orb_false_r in Hn. subst m. cbn. by rewrite Hst.
  - cbn. by rewrite Hst.
Qed.

Lemma sample_names_differ : setsName <> bindingsName.
Proof. discriminate. Qed.

(** X16.  The case [created] of [TestApplyStorageVersionMigrations]
    passes for every package whose two manifests decode to migration
    requests of the two expected names, whatever else the manifests
    say. *)
Theorem test_created_passes (pkg : Package) d1 r1 d2 r2 :
  clusterManagerAsset pkg setsFile = inl d1 ->
  Decode pkg d1 = inl (ObjStorageVersionMigration r1) ->
  clusterManagerAsset pkg bindingsFile = inl d2 ->
  Decode pkg d2 = inl (ObjStorageVersionMigration r2) ->
  Name (Meta r1) = setsName ->
  Name (Meta r2) = bindingsName ->
  testApplyStorageVersionMigrations pkg [] validateCreated = Returns [].
Proof.
  intros Hm1 Hd1 Hm2 Hd2 Hn1 Hn2.
  unfold testApplyStorageVersionMigrations, run.
  rewrite (memory_applyLoop_fresh pkg d1 d2 r1 r2 Hm1 Hd1 Hm2 Hd2).
  - unfold validateCreated, assertStorageVersionMigration. cbn.
    by rewrite Hn1, Hn2.
  - rewrite Hn1, Hn2. apply sample_names_differ.
  - apply lookup_empty.
  - apply lookup_empty.
Qed.

(** X17.  The case [created and updated] passes for every package whose
    manifests decode to migration requests of the two expected names,
    provided the apply finds the bare bindings request of the test in
    need of an update and [EnsureObjectMeta] leaves it its name. *)
Theorem test_created_and_updated_passes (pkg : Package) d1 r1 d2 r2 :
  clusterManagerAsset pkg setsFile = inl d1 ->
  Decode pkg d1 = inl (ObjStorageVersionMigration r1) ->
  clusterManagerAsset pkg bindingsFile = inl d2 ->
  Decode pkg d2 = inl (ObjStorageVersionMigration r2) ->
  Name (Meta r1) = setsName ->
  Name (Meta r2) = bindingsName ->
  needsUpdate pkg bareBindings r2 = true ->
  Name (EnsureObjectMeta pkg false (Meta bareBindings) (Meta r2)).2 = bindingsName ->
  testApplyStorageVersionMigrations pkg [bareBindings] validateCreatedAndUpdated
  = Returns [].
Proof.
  intros Hm1 Hd1 Hm2 Hd2 Hn1 Hn2 Hneed Hkeep.
  pose proof Hkeep as Hkeep'. cbn in Hkeep'.
  unfold testApplyStorageVersionMigrations, run, applyStorageVersionMigrations, bind, ret.
  change migrationRequestFiles with [setsFile; bindingsFile].
  cbn [applyLoop migrationClient fakeController]. unfold bind.
  rewrite (memory_apply_absent pkg _ _ _ _ _ Hm1 Hd1);
    [|cbn; rewrite Hn1; by vm_compute]. cbn [fst snd].
  rewrite (memory_apply_update pkg _ _ _ _ bareBindings bareBindings _ Hm2 Hd2);
    [| cbn; rewrite Hn1, Hn2; by vm_compute
     | done
     | cbn; rewrite Hkeep', Hn1; by vm_compute].
  unfold validateCreatedAndUpdated, assertStorageVersionMigration. cbn.
  by rewrite Hn1, Hkeep'.
Qed.

(** ** The further properties on the sample runs *)

Lemma run_projections {St A : Type} (m : M St A) (s : St) :
  run m s = (resultOf m s, stateOf m s, logOf m s).
Proof. unfold run, resultOf, stateOf, logOf. by destruct (m s) as [[a s1] l]. Defined.

Lemma sync_crd_lookup_error_witness :
  resultOf (sync samplePackage refusedController "cluster-manager") applied_hub
  = Some (StatusError StatusReasonForbidden "forbidden")
  /\ countb isMutation
       (logOf (sync samplePackage refusedController "cluster-manager") applied_hub) = 0.
Proof.
  pose proof (sync_crd_lookup_error samplePackage refusedController "cluster-manager"
                applied_hub
                (sampleClusterManager None [mkCondition "Applied" "True"])
                applied_hub (StatusError StatusReasonForbidden "forbidden") applied_hub
                _ _ _ eq_refl eq_refl eq_refl (run_projections _ _))
    as (Hr & _ & _ & Hc & _).
  split; [exact Hr|exact Hc].
Defined.

Lemma sync_applies_when_applied_witness :
  exists l3,
    logOf sync_run applied_hub
    = ([ActListerGet "cluster-manager"
          (RespOk (sampleClusterManager None [mkCondition "Applied" "True"]));
        ActCRDGet migrationRequestCRDName None] ++ l3)%list
    /\ countb isDelete (logOf sync_run applied_hub) = 0.
Proof.
  destruct (sync_applies_when_applied samplePackage (fakeController noReactor)
              "cluster-manager" applied_hub
              (sampleClusterManager None [mkCondition "Applied" "True"])
              applied_hub applied_hub _ _ _
              eq_refl eq_refl eq_refl eq_refl (run_projections _ _))
    as (l3 & _ & Hl & Hd & _).
  exists l3. split; [exact Hl|exact Hd].
Defined.

Lemma sync_phases_do_not_mix_witness :
  countb isCreate (logOf sync_run deleting_hub) = 0
  /\ countb isUpdate (logOf sync_run deleting_hub) = 0
  /\ countb isGet (logOf sync_run deleting_hub) = 0
  /\ countb isRecorded (logOf sync_run deleting_hub) = 0
  /\ countb isAddAfter (logOf sync_run deleting_hub) = 0.
Proof.
  apply (proj2 (sync_phases_do_not_mix samplePackage (fakeController noReactor)
                  "cluster-manager" deleting_hub
                  (sampleClusterManager (Some 1700000000000000000%Z) [])
                  deleting_hub _ _ _ eq_refl (run_projections _ _)) eq_refl).
Defined.

Lemma sync_effects_need_both_lookups_witness :
  countb isAddAfter (logOf sync_run waiting_hub) <= 1
  /\ (countb isAddAfter (logOf sync_run waiting_hub) = 1 ->
      resultOf sync_run waiting_hub = None
      /\ countb isMutation (logOf sync_run waiting_hub) = 0
      /\ countb isRecorded (logOf sync_run waiting_hub) = 0).
Proof.
  apply (sync_effects_need_both_lookups samplePackage (fakeController noReactor)
           "cluster-manager" waiting_hub _ _ _ (run_projections _ _)).
Defined.

Lemma apply_bad_manifest_stays_local_witness :
  artifactName bindingsOnlyPackage (clusterManagerAsset bindingsOnlyPackage) setsFile = None
  /\ stateOf apply_missing_run applied_hub = applied_hub
  /\ countb isStoreCall (logOf apply_missing_run applied_hub) = 0.
Proof.
  split; [reflexivity|].
  pose proof (apply_bad_manifest_stays_local bindingsOnlyPackage
                (fakeMigrationClient noReactor) (clusterManagerAsset bindingsOnlyPackage)
                setsFile applied_hub _ _ _ eq_refl (run_projections _ _))
    as (_ & _ & _ & Hs & Hc & _).
  split; [exact Hs|exact Hc].
Defined.

Lemma apply_call_shape_witness :
  countb isGet (logOf apply_sets_run emptyCluster) <= 1
  /\ countb isCreate (logOf apply_sets_run emptyCluster)
     + countb isUpdate (logOf apply_sets_run emptyCluster) <= 1
  /\ countb isDelete (logOf apply_sets_run emptyCluster) = 0.
Proof.
  pose proof (apply_call_shape samplePackage (fakeMigrationClient noReactor)
                (clusterManagerAsset samplePackage) setsFile emptyCluster _ _ _
                (run_projections _ _))
    as (_ & Hg & Hm & Hd & _).
  split; [exact Hg|]. split; [exact Hm|exact Hd].
Defined.

Lemma create_in_apply_sets_run :
  ActCreate setsMigration (RespOk setsMigration) ∈ logOf apply_sets_run emptyCluster.
Proof. apply list_elem_of_In. vm_compute. right. right. left. reflexivity. Defined.

Lemma apply_payloads_witness :
  ActCreate setsMigration (RespOk setsMigration) ∈ logOf apply_sets_run emptyCluster
  /\ exists data,
       clusterManagerAsset samplePackage setsFile = inl data
       /\ Decode samplePackage data = inl (ObjStorageVersionMigration setsMigration).
Proof.
  split; [exact create_in_apply_sets_run|].
  exact (proj1 (proj1 (apply_payloads samplePackage (fakeMigrationClient noReactor)
                         (clusterManagerAsset samplePackage) setsFile emptyCluster _ _ _
                         (run_projections _ _))
                  setsMigration (RespOk setsMigration) create_in_apply_sets_run)).
Defined.

Lemma apply_returns_store_answer_witness :
  errOf (resultOf apply_sets_run emptyCluster) = None
  /\ exists o,
       (resultOf apply_sets_run emptyCluster).1.1 = Some o
       /\ ((changedOf (resultOf apply_sets_run emptyCluster) = false
            /\ exists name, ActGet name (RespOk o) ∈ logOf apply_sets_run emptyCluster)
           \/ (changedOf (resultOf apply_sets_run emptyCluster) = true
               /\ ((exists sent,
                      ActCreate sent (RespOk o) ∈ logOf apply_sets_run emptyCluster)
                   \/ (exists sent,
                         ActUpdate sent (RespOk o) ∈ logOf apply_sets_run emptyCluster)))).
Proof.
  split; [reflexivity|].
  exact (proj1 (apply_returns_store_answer samplePackage (fakeMigrationClient noReactor)
                  (clusterManagerAsset samplePackage) setsFile emptyCluster _ _ _
                  (run_projections _ _)) eq_refl).
Defined.

Lemma remove_call_shape_witness :
  artifactName samplePackage (clusterManagerAsset samplePackage) setsFile = Some setsName
  /\ exists derr,
       logOf remove_absent_run deleting_hub
       = [ActAsset setsFile (clusterManagerAsset samplePackage setsFile);
          ActDelete setsName derr].
Proof.
  split; [reflexivity|].
  destruct (proj1 (proj2 (proj2 (proj2
              (remove_call_shape samplePackage (fakeMigrationClient noReactor)
                 (clusterManagerAsset samplePackage) setsFile deleting_hub _ _ _
                 (run_projections _ _))))) setsName eq_refl)
    as (derr & Hl & _).
  by exists derr.
Defined.

Lemma crd_in_applied_hub : migrationRequestCRDName ∈ crds applied_hub.
Proof. vm_compute. reflexivity. Defined.

Lemma sync_twice_on_memory_store_witness :
  omap verb (logOf sync_run applied_hub) = ["get"; "create"; "get"; "create"]
  /\ countb isMutation (logOf sync_run (stateOf sync_run applied_hub)) = 0
  /\ stateOf sync_run (stateOf sync_run applied_hub) = stateOf sync_run applied_hub.
Proof.
  pose proof (sync_twice_on_memory_store samplePackage "cluster-manager"
                (sampleClusterManager None [mkCondition "Applied" "True"])
                _ setsMigration _ bindingsMigration applied_hub _ _ _ _ _ _
                eq_refl crd_in_applied_hub eq_refl eq_refl eq_refl eq_refl eq_refl eq_refl
                sample_names_differ (overlayObjectMeta_self _) (overlayObjectMeta_self _)
                eq_refl (run_projections _ _) (run_projections _ _))
    as (_ & Hv & _ & _ & _ & Hm & _ & Hs).
  split; [exact Hv|]. split; [exact Hm|exact Hs].
Defined.

Lemma removal_on_memory_store_witness :
  resultOf (removeStorageVersionMigrations samplePackage (fakeController noReactor))
    deleting_hub = None
  /\ deletesOf
       (logOf (removeStorageVersionMigrations samplePackage (fakeController noReactor))
          deleting_hub)
     = [setsName; bindingsName].
Proof.
  pose proof (removal_on_memory_store samplePackage _ setsMigration _ bindingsMigration
                deleting_hub _ _ _ eq_refl eq_refl eq_refl eq_refl (run_projections _ _))
    as (Hr & Hd & _).
  split; [exact Hr|exact Hd].
Defined.

Lemma apply_then_remove_restores_store_witness :
  migrations
    (stateOf (removeStorageVersionMigrations samplePackage (fakeController noReactor))
       (stateOf (applyStorageVersionMigrations samplePackage (fakeController noReactor))
          applied_hub))
  = migrations applied_hub.
Proof.
  pose proof (apply_then_remove_restores_store samplePackage
                _ setsMigration _ bindingsMigration applied_hub _ _ _ _ _ _
                eq_refl eq_refl eq_refl eq_refl sample_names_differ eq_refl eq_refl
                (run_projections _ _) (run_projections _ _))
    as (_ & _ & _ & _ & Hm & _).
  exact Hm.
Defined.

Lemma apply_isolates_missing_manifest_witness :
  resultOf (applyStorageVersionMigrations bindingsOnlyPackage (fakeController noReactor))
    applied_hub
  = Some (Aggregate [ErrorfErr "missing %q: %v" setsFile (PathError "open" setsFile)])
  /\ createPayloads
       (logOf (applyStorageVersionMigrations bindingsOnlyPackage
                 (fakeController noReactor)) applied_hub)
     = [bindingsMigration].
Proof.
  pose proof (apply_isolates_missing_manifest bindingsOnlyPackage
                (PathError "open" setsFile) _ bindingsMigration applied_hub _ _ _
                eq_refl eq_refl eq_refl eq_refl (run_projections _ _))
    as (Hr & Hc & _).
  split; [exact Hr|exact Hc].
Defined.

Lemma test_created_passes_witness :
  testApplyStorageVersionMigrations samplePackage [] validateCreated = Returns [].
Proof.
  exact (test_created_passes samplePackage _ setsMigration _ bindingsMigration
           eq_refl eq_refl eq_refl eq_refl eq_refl eq_refl).
Defined.

Lemma test_created_and_updated_passes_witness :
  needsUpdate samplePackage bareBindings bindingsMigration = true
  /\ testApplyStorageVersionMigrations samplePackage [bareBindings]
       validateCreatedAndUpdated = Returns [].
Proof.
  split; [reflexivity|].
  exact (test_created_and_updated_passes samplePackage
           _ setsMigration _ bindingsMigration
           eq_refl eq_refl eq_refl eq_refl eq_refl eq_refl eq_refl eq_refl).
Defined.
